(** * The cleaning pipeline of [data_cleaning.py]

    A shallow embedding of [clean_data] and of the pandas operations it
    calls, followed by the properties of the cleaned table.

    Modelling conventions.
    - A cell is a Python object: a missing marker (NaN, None and NaT are
      not told apart by [isnull], [dropna] and [fillna], and are one
      constructor here), a number, a [str] or a [Timestamp].
    - Numbers are exact rationals ([Qc], canonical fractions, so that
      equal numbers are equal terms).  Rounding, overflow and the IEEE
      infinities of float64 are outside the model.
    - A [Timestamp] is kept as its calendar date: the code only reads
      year, month, day, weekday and quarter from it.
    - A [DataFrame] is its ordered column index and its rows; every row
      carries its index label, which filtering keeps.
    - Columns hold arbitrary objects (dtype [object]); elementwise
      operators raise [TypeError] exactly where Python's operators do.
    - Console output is not modelled; the expressions that are printed
      are evaluated, because they can raise. *)

From Stdlib Require Import QArith Qcanon Qround ZArith Ascii String Lqa.
From stdpp Require Import gmap strings list fin_maps numbers sorting pretty.

Local Open Scope Z_scope.

(** ** Cells, rows and tables *)

Record date := Date { year : Z; month : Z; day : Z }.

Inductive value :=
| VNaN
| VNum (x : Qc)
| VStr (s : string)
| VDate (d : date).

#[global] Instance date_eq_dec : EqDecision date.
Proof. solve_decision. Defined.

#[global] Instance value_eq_dec : EqDecision value.
Proof. solve_decision. Defined.

Definition isna (v : value) : bool :=
  match v with VNaN => true | _ => false end.

Definition is_timestamp (v : value) : bool :=
  match v with VDate _ => true | _ => false end.

Definition num (z : Z) : Qc := Q2Qc (inject_Z z).

Record Row := { label : nat; cells : gmap string value }.

Record DataFrame := { columns : list string; rows : list Row }.

(** [df[c]] at one row; a row that has no entry for [c] reads as missing. *)
Definition cell (r : Row) (c : string) : value := default VNaN (cells r !! c).

Definition set_cell (c : string) (v : value) (r : Row) : Row :=
  {| label := label r; cells := <[c := v]> (cells r) |}.

(** [c in df.columns] *)
Definition has (c : string) (df : DataFrame) : bool :=
  bool_decide (c ∈ columns df).

(** [df[c]] as a Series of cells. *)
Definition column (c : string) (df : DataFrame) : list value :=
  (λ r, cell r c) <$> rows df.

(** Column index after [df[c] = ...]: an existing column keeps its place,
    a new one is appended. *)
Definition add_column (c : string) (cols : list string) : list string :=
  if bool_decide (c ∈ cols) then cols else cols ++ [c].

(** ** Exceptions *)

Inductive exn :=
| KeyError (c : string)
| TypeError.

Inductive result (A : Type) :=
| Ok (a : A)
| Raise (e : exn).
Arguments Ok {A} a.
Arguments Raise {A} e.

#[global] Instance result_ret : MRet result := λ A a, Ok a.
#[global] Instance result_bind : MBind result := λ A B f m,
  match m with Ok a => f a | Raise e => Raise e end.

(** Evaluate [f] on every element, left to right; the first exception
    aborts. *)
Fixpoint each {A B} (f : A → result B) (l : list A) : result (list B) :=
  match l with
  | [] => Ok []
  | a :: l' => b ← f a; bs ← each f l'; Ok (b :: bs)
  end.

(** ** Frame operations *)

(** [df[mask]] for a mask already computed, one boolean per row. *)
Fixpoint take_mask (mask : list bool) (rs : list Row) : list Row :=
  match mask, rs with
  | b :: mask', r :: rs' =>
      if b then r :: take_mask mask' rs' else take_mask mask' rs'
  | _, _ => []
  end.

(** [df = df[p(df)]] where the mask is computed elementwise and the
    elementwise operator may raise. *)
Definition where_ (p : Row → result bool) (df : DataFrame) : result DataFrame :=
  mask ← each p (rows df);
  Ok {| columns := columns df; rows := take_mask mask (rows df) |}.

(** [df[c] = vals], one value per row. *)
Definition set_column (c : string) (vals : list value) (df : DataFrame)
  : DataFrame :=
  {| columns := add_column c (columns df);
     rows := zip_with (λ r v, set_cell c v r) (rows df) vals |}.

(** [df[c] = f(df)] for an elementwise [f]. *)
Definition assign (c : string) (f : Row → result value) (df : DataFrame)
  : result DataFrame :=
  vals ← each f (rows df); Ok (set_column c vals df).

(** [df[c].fillna(v, inplace=True)] *)
Definition fillna (c : string) (v : value) (df : DataFrame) : DataFrame :=
  {| columns := columns df;
     rows := (λ r, if isna (cell r c) then set_cell c v r else r) <$> rows df |}.

(** [df.dropna(subset=cols, inplace=True)] *)
Definition complete (cols : list string) (r : Row) : bool :=
  forallb (λ c, negb (isna (cell r c))) cols.

Definition dropna (cols : list string) (df : DataFrame) : DataFrame :=
  {| columns := columns df;
     rows := filter (λ r, complete cols r) (rows df) |}.

(** [df.drop_duplicates(subset=[c], keep='first', inplace=True)].
    pandas returns at once on an empty frame (no rows or no columns) and
    otherwise raises [KeyError] for a subset column that does not exist. *)
Fixpoint keep_first (c : string) (seen : list value) (rs : list Row)
  : list Row :=
  match rs with
  | [] => []
  | r :: rs' =>
      if bool_decide (cell r c ∈ seen) then keep_first c seen rs'
      else r :: keep_first c (cell r c :: seen) rs'
  end.

Definition is_empty (df : DataFrame) : bool :=
  match columns df, rows df with
  | [], _ | _, [] => true
  | _, _ => false
  end.

Definition drop_duplicates (c : string) (df : DataFrame) : result DataFrame :=
  if is_empty df then Ok df
  else if has c df then
    Ok {| columns := columns df; rows := keep_first c [] (rows df) |}
  else Raise (KeyError c).

(** [df[c]]: the lookup itself raises when the column is absent. *)
Definition getitem (c : string) (df : DataFrame) : result (list value) :=
  if has c df then Ok (column c df) else Raise (KeyError c).

(** ** Numeric columns *)

(** The numeric reading of a cell: missing cells are skipped by the
    aggregates ([skipna]); a [str] or a [Timestamp] is not a number. *)
Definition as_number (v : value) : result (option Qc) :=
  match v with
  | VNaN => Ok None
  | VNum x => Ok (Some x)
  | VStr _ | VDate _ => Raise TypeError
  end.

Definition numbers (vs : list value) : result (list Qc) :=
  xs ← each as_number vs; Ok (omap (M:=list) id xs).

Definition sum_Qc (xs : list Qc) : Qc := foldr Qcplus (num 0) xs.

Definition count (xs : list Qc) : Qc := num (Z.of_nat (length xs)).

(** [Series.mean()]: NaN ([None]) on no values. *)
Definition mean (xs : list Qc) : option Qc :=
  match xs with
  | [] => None
  | _ => Some (sum_Qc xs / count xs)%Qc
  end.

(** The square of [Series.std()] (sample variance, [ddof=1]): NaN on
    fewer than two values. *)
Definition variance (xs : list Qc) : option Qc :=
  match xs with
  | [] | [_] => None
  | _ =>
      m ← mean xs;
      Some (sum_Qc ((λ x, (x - m) * (x - m)) <$> xs) / (count xs - num 1))%Qc
  end.

(** [abs(x - mean) <= 3 * std].  The standard deviation is the square
    root of the variance, so for a variance [v >= 0] the test is
    [(x - mean)^2 <= 9 * v]; a comparison with NaN is false. *)
Definition within_3_std (m v : option Qc) (x : value) : result bool :=
  match x with
  | VNaN => Ok false
  | VNum x =>
      Ok (match m, v with
          | Some m, Some v =>
              bool_decide ((x - m) * (x - m) ≤ num 9 * v)%Qc
          | _, _ => false
          end)
  | VStr _ | VDate _ => Raise TypeError
  end.

(** [Series.median()] *)
Definition median_of (xs : list Qc) : value :=
  let ys := merge_sort Qcle xs in
  let n := length ys in
  match n with
  | O => VNaN
  | _ =>
      if Nat.even n then
        match ys !! (n / 2 - 1)%nat, ys !! (n / 2)%nat with
        | Some a, Some b => VNum ((a + b) / num 2)%Qc
        | _, _ => VNaN
        end
      else
        match ys !! (n / 2)%nat with
        | Some a => VNum a
        | None => VNaN
        end
  end.

Definition median (vs : list value) : result value :=
  xs ← numbers vs; Ok (median_of xs).

(** [x > 0] on one cell: false on a missing cell, [TypeError] between a
    [str] or [Timestamp] and an [int]. *)
Definition gt0 (v : value) : result bool :=
  match v with
  | VNaN => Ok false
  | VNum x => Ok (bool_decide (num 0 < x)%Qc)
  | VStr _ | VDate _ => Raise TypeError
  end.

(** [a / b] on one row.  A zero divisor yields an IEEE infinity or NaN in
    numpy, which has no rational value; that case is written as missing. *)
Definition truediv (a b : value) : result value :=
  match a, b with
  | VNum x, VNum y =>
      Ok (if bool_decide (y = num 0) then VNaN else VNum (x / y)%Qc)
  | VNaN, (VNaN | VNum _) | VNum _, VNaN => Ok VNaN
  | _, _ => Raise TypeError
  end.

(** [pd.cut(x, bins=[0, 25, 35, 50, 65, 100], labels=[...])] on one cell:
    the default [right=True] makes the bins (0,25], (25,35], (35,50],
    (50,65], (65,100]; the left edge 0 belongs to no bin
    ([include_lowest=False]). *)
Definition age_bins : list Z := [0; 25; 35; 50; 65; 100].
Definition age_labels : list string :=
  ["18-25"; "26-35"; "36-50"; "51-65"; "65+"]%string.

Fixpoint cut_bins (x : Qc) (bins : list Z) (labels : list string) : value :=
  match bins, labels with
  | lo :: ((hi :: _) as bins'), l :: labels' =>
      if bool_decide (num lo < x)%Qc && bool_decide (x ≤ num hi)%Qc
      then VStr l else cut_bins x bins' labels'
  | _, _ => VNaN
  end.

Definition cut (v : value) : result value :=
  match v with
  | VNaN => Ok VNaN
  | VNum x => Ok (cut_bins x age_bins age_labels)
  | VStr _ | VDate _ => Raise TypeError
  end.

(** ** String columns *)

Local Open Scope char_scope.

Definition is_lower (c : ascii) : bool := ("a" <=? c) && (c <=? "z").
Definition is_upper (c : ascii) : bool := ("A" <=? c) && (c <=? "Z").
Definition is_alpha (c : ascii) : bool := is_lower c || is_upper c.
Definition is_digit (c : ascii) : bool := ("0" <=? c) && (c <=? "9").

(** Whitespace of [str.strip()], ASCII part: tab, LF, VT, FF, CR, the
    four separators FS..US and the space. *)
Definition is_space (c : ascii) : bool :=
  (("009" <=? c) && (c <=? "013")) || (("028" <=? c) && (c <=? " ")).

Definition to_upper (c : ascii) : ascii :=
  if is_lower c then ascii_of_nat (nat_of_ascii c - 32) else c.
Definition to_lower (c : ascii) : ascii :=
  if is_upper c then ascii_of_nat (nat_of_ascii c + 32) else c.

Local Close Scope char_scope.
Local Open Scope string_scope.

(** [str.title()]: a cased character is upper-cased when the character
    before it is not cased and lower-cased when it is.  Bytes above 127
    count as uncased. *)
Fixpoint title_from (prev_cased : bool) (s : string) : string :=
  match s with
  | "" => ""
  | String c s' =>
      if is_alpha c
      then String (if prev_cased then to_lower c else to_upper c)
                  (title_from true s')
      else String c (title_from false s')
  end.

Definition title (s : string) : string := title_from false s.

Fixpoint lstrip (s : string) : string :=
  match s with
  | "" => ""
  | String c s' => if is_space c then lstrip s' else s
  end.

Fixpoint rstrip (s : string) : string :=
  match s with
  | "" => ""
  | String c s' =>
      match rstrip s' with
      | "" => if is_space c then "" else String c ""
      | t => String c t
      end
  end.

(** [str.strip()] *)
Definition strip (s : string) : string := rstrip (lstrip s).

(** [re.sub(r'[^\d]', '', s)] on ASCII text. *)
Fixpoint keep_digits (s : string) : string :=
  match s with
  | "" => ""
  | String c s' =>
      if is_digit c then String c (keep_digits s') else keep_digits s'
  end.

(** *** Regular expressions *)

Inductive regex :=
| Void
| Eps
| Class (p : ascii → bool)
| Cat (r1 r2 : regex)
| Alt (r1 r2 : regex)
| Star (r : regex).

(** [r+] and [r{2,}] *)
Definition Plus (r : regex) : regex := Cat r (Star r).
Definition AtLeast2 (r : regex) : regex := Cat r (Cat r (Star r)).

Fixpoint nullable (r : regex) : bool :=
  match r with
  | Void | Class _ => false
  | Eps | Star _ => true
  | Cat r1 r2 => nullable r1 && nullable r2
  | Alt r1 r2 => nullable r1 || nullable r2
  end.

Fixpoint deriv (c : ascii) (r : regex) : regex :=
  match r with
  | Void | Eps => Void
  | Class p => if p c then Eps else Void
  | Cat r1 r2 =>
      if nullable r1 then Alt (Cat (deriv c r1) r2) (deriv c r2)
      else Cat (deriv c r1) r2
  | Alt r1 r2 => Alt (deriv c r1) (deriv c r2)
  | Star r1 => Cat (deriv c r1) (Star r1)
  end.

(** The whole of [s] is a word of [r]. *)
Fixpoint accepts (r : regex) (s : string) : bool :=
  match s with
  | "" => nullable r
  | String c s' => accepts (deriv c r) s'
  end.

Fixpoint without_final_newline (s : string) : option string :=
  match s with
  | "" => None
  | String c "" => if bool_decide (c = "010"%char) then Some "" else None
  | String c s' => String c <$> without_final_newline s'
  end.

(** [re.match('^' + r + '$', s)]: [$] matches at the end of the string and
    also just before a newline that ends the string. *)
Definition re_match (r : regex) (s : string) : bool :=
  accepts r s ||
  match without_final_newline s with
  | Some s' => accepts r s'
  | None => false
  end.

(** [Series.str.match(r, na=False)] on one cell: a cell that is not a
    [str] gives NaN, which [na=False] turns into [False]. *)
Definition str_match (r : regex) (v : value) : bool :=
  match v with
  | VStr s => re_match r s
  | _ => false
  end.

(** [Series.str.title().str.strip()] on one cell: NaN on a cell that is
    not a [str]. *)
Definition str_title_strip (v : value) : value :=
  match v with
  | VStr s => VStr (strip (title s))
  | _ => VNaN
  end.

(** ** Dates *)

Local Open Scope Z_scope.

(** Days since 1970-01-01 of a proleptic Gregorian date. *)
Definition days_from_civil (d : date) : Z :=
  let y := if month d <=? 2 then year d - 1 else year d in
  let era := y / 400 in
  let yoe := y - era * 400 in
  let mp := if month d <=? 2 then month d + 9 else month d - 3 in
  let doy := (153 * mp + 2) / 5 + day d - 1 in
  let doe := yoe * 365 + yoe / 4 - yoe / 100 + doy in
  era * 146097 + doe - 719468.

Definition day_names : list string :=
  ["Monday"; "Tuesday"; "Wednesday"; "Thursday"; "Friday"; "Saturday";
   "Sunday"].

(** The [.dt] accessors on one cell of a datetime column; NaT gives NaN. *)
Definition dt_year (v : value) : value :=
  match v with VDate d => VNum (num (year d)) | _ => VNaN end.
Definition dt_month (v : value) : value :=
  match v with VDate d => VNum (num (month d)) | _ => VNaN end.
Definition dt_day (v : value) : value :=
  match v with VDate d => VNum (num (day d)) | _ => VNaN end.
Definition dt_day_name (v : value) : value :=
  match v with
  | VDate d =>
      match day_names !! Z.to_nat ((days_from_civil d + 3) mod 7) with
      | Some n => VStr n
      | None => VNaN
      end
  | _ => VNaN
  end.
Definition dt_quarter (v : value) : value :=
  match v with VDate d => VNum (num ((month d - 1) / 3 + 1)) | _ => VNaN end.

(** The library functions whose result the code takes as it comes.
    [pd.to_datetime(col, errors='coerce')] works on a whole column (the
    format may be inferred from the column): it returns one cell per
    input cell, each a [Timestamp] or NaT, and leaves a column of
    [Timestamp]s as it is.  [str(x)] of a number and of a [Timestamp]
    are used by [astype(str)]. *)
Class Pandas := {
  to_datetime : list value → list value;
  to_datetime_length : ∀ l, length (to_datetime l) = length l;
  to_datetime_cells :
    ∀ l, Forall (λ v, v = VNaN ∨ is_timestamp v = true) (to_datetime l);
  to_datetime_timestamps :
    ∀ l, Forall (λ v, is_timestamp v = true) l → to_datetime l = l;
  str_of_number : Qc → string;
  str_of_timestamp : date → string
}.

(** [Series.astype(str)] on one cell *)
Definition astype_str `{Pandas} (v : value) : string :=
  match v with
  | VNaN => "nan"
  | VNum x => str_of_number x
  | VStr s => s
  | VDate d => str_of_timestamp d
  end.

(** ** [clean_data] *)

Local Open Scope string_scope.

Definition critical_columns : list string :=
  ["order_id"; "customer_id"; "order_date"; "total_amount"].

Definition one_of (s : string) (c : ascii) : bool :=
  bool_decide (c ∈ list_ascii_of_string s).

(** [r'^[a-zA-Z0-9._%+-]+@[a-zA-Z0-9.-]+\.[a-zA-Z]{2,}$'] *)
Definition email_pattern : regex :=
  Cat (Plus (Class (λ c, is_alpha c || is_digit c || one_of "._%+-" c)))
 (Cat (Class (one_of "@"))
 (Cat (Plus (Class (λ c, is_alpha c || is_digit c || one_of ".-" c)))
 (Cat (Class (one_of "."))
      (AtLeast2 (Class is_alpha))))).

Definition gender_mapping : gmap string string :=
  list_to_map
    [("M", "Male"); ("m", "Male"); ("male", "Male"); ("MALE", "Male");
     ("F", "Female"); ("f", "Female"); ("female", "Female");
     ("FEMALE", "Female")].

(** [Series.map(d)] on one cell: NaN for a value that is not a key. *)
Definition map_dict (d : gmap string string) (v : value) : value :=
  match v with
  | VStr s => match d !! s with Some t => VStr t | None => VNaN end
  | _ => VNaN
  end.

Definition fill (d v : value) : value := if isna v then d else v.

(** [.replace('', np.nan)] on one cell *)
Definition replace_empty (s : string) : value :=
  if bool_decide (s = "") then VNaN else VStr s.

Section clean.
Context `{Pandas}.

(** [df[c] = f(df)] for an elementwise [f] that cannot raise. *)
Definition transform (c : string) (f : Row → value) (df : DataFrame) : DataFrame :=
  set_column c (f <$> rows df) df.

(** [df = df[p(df)]] for an elementwise [p] that cannot raise. *)
Definition select (p : Row → bool) (df : DataFrame) : DataFrame :=
  {| columns := columns df; rows := filter (λ r, p r) (rows df) |}.

(** *** 1. Handle missing values *)

(** lines 30-31 *)
Definition fill_customer_age (df : DataFrame) : result DataFrame :=
  if has "customer_age" df then
    m ← median (column "customer_age" df);
    Ok (fillna "customer_age" m df)
  else Ok df.

(** lines 34-35 *)
Definition fill_product_category (df : DataFrame) : result DataFrame :=
  if has "product_category" df
  then Ok (fillna "product_category" (VStr "Unknown") df) else Ok df.

(** lines 38-39 *)
Definition drop_missing_critical (df : DataFrame) : result DataFrame :=
  Ok (dropna (filter (λ c, has c df) critical_columns) df).

Definition handle_missing (df : DataFrame) : result DataFrame :=
  df ← fill_customer_age df;
  df ← fill_product_category df;
  drop_missing_critical df.

(** *** 2. Remove duplicates (line 44) *)
Definition remove_duplicates (df : DataFrame) : result DataFrame :=
  drop_duplicates "order_id" df.

(** *** 3. Clean and standardize data types *)

(** lines 52-54 *)
Definition clean_order_date (df : DataFrame) : result DataFrame :=
  if has "order_date" df then
    Ok (dropna ["order_date"]
          (set_column "order_date" (to_datetime (column "order_date" df)) df))
  else Ok df.

(** lines 57-59 *)
Definition clean_customer_email (df : DataFrame) : result DataFrame :=
  if has "customer_email" df then
    Ok (select (λ r, str_match email_pattern (cell r "customer_email")) df)
  else Ok df.

(** lines 62-64; [digits_only] is what the two assignments do to one
    cell: [astype(str)], removal of the non-digits, [''] to NaN. *)
Definition digits_only (v : value) : value :=
  replace_empty (keep_digits (astype_str v)).

Definition clean_customer_phone (df : DataFrame) : result DataFrame :=
  if has "customer_phone" df then
    Ok (transform "customer_phone"
          (λ r, digits_only (cell r "customer_phone")) df)
  else Ok df.

Definition standardize_types (df : DataFrame) : result DataFrame :=
  df ← clean_order_date df;
  df ← clean_customer_email df;
  clean_customer_phone df.

(** *** 4. Handle outliers *)

(** lines 70-71, 73-74 and 76-77: [df = df[df[c] > 0]] *)
Definition positive (c : string) (df : DataFrame) : result DataFrame :=
  if has c df then where_ (λ r, gt0 (cell r c)) df else Ok df.

(** lines 76 and 80-82: mean and standard deviation are taken once, over
    the rows that are left when the test starts. *)
Definition remove_extreme_outliers (df : DataFrame) : result DataFrame :=
  if has "total_amount" df then
    xs ← numbers (column "total_amount" df);
    where_ (λ r, within_3_std (mean xs) (variance xs) (cell r "total_amount")) df
  else Ok df.

Definition positive_amounts (df : DataFrame) : result DataFrame :=
  df ← positive "quantity" df;
  df ← positive "unit_price" df;
  positive "total_amount" df.

Definition handle_outliers (df : DataFrame) : result DataFrame :=
  df ← positive_amounts df;
  remove_extreme_outliers df.

(** *** 5. Standardize categorical data *)

(** lines 88-89 and 100-101: [df[c] = df[c].str.title().str.strip()] *)
Definition title_case (c : string) (df : DataFrame) : result DataFrame :=
  if has c df
  then Ok (transform c (λ r, str_title_strip (cell r c)) df) else Ok df.

(** lines 92-97 *)
Definition standardize_customer_gender (df : DataFrame) : result DataFrame :=
  if has "customer_gender" df then
    Ok (transform "customer_gender"
          (λ r, fill (VStr "Unknown")
                  (map_dict gender_mapping (cell r "customer_gender"))) df)
  else Ok df.

Definition standardize_categorical (df : DataFrame) : result DataFrame :=
  df ← title_case "product_category" df;
  df ← standardize_customer_gender df;
  title_case "payment_method" df.

(** *** 6. Create derived columns *)

(** lines 107-112 *)
Definition date_components (df : DataFrame) : result DataFrame :=
  if has "order_date" df then
    let df := transform "order_year" (λ r, dt_year (cell r "order_date")) df in
    let df := transform "order_month" (λ r, dt_month (cell r "order_date")) df in
    let df := transform "order_day" (λ r, dt_day (cell r "order_date")) df in
    let df := transform "order_weekday"
                (λ r, dt_day_name (cell r "order_date")) df in
    Ok (transform "order_quarter" (λ r, dt_quarter (cell r "order_date")) df)
  else Ok df.

(** lines 115-118 *)
Definition age_groups (df : DataFrame) : result DataFrame :=
  if has "customer_age" df
  then assign "age_group" (λ r, cut (cell r "customer_age")) df
  else Ok df.

(** lines 121-122 *)
Definition revenue_per_item (df : DataFrame) : result DataFrame :=
  if has "total_amount" df && has "quantity" df then
    assign "revenue_per_item"
      (λ r, truediv (cell r "total_amount") (cell r "quantity")) df
  else Ok df.

Definition derive_columns (df : DataFrame) : result DataFrame :=
  df ← date_components df;
  df ← age_groups df;
  revenue_per_item df.

(** *** 7. Final validation (lines 136-138): the report reads
    [df['order_id']] and [df['order_date']] without a test for the column. *)
Definition final_validation (df : DataFrame) : result DataFrame :=
  _ ← getitem "order_id" df;
  _ ← getitem "order_date" df;
  Ok df.

(** The table as the three-standard-deviation test finds it. *)
Definition before_outlier_test (df : DataFrame) : result DataFrame :=
  df ← handle_missing df;
  df ← remove_duplicates df;
  df ← standardize_types df;
  positive_amounts df.

(** The table as the derived-column stage finds it. *)
Definition before_derived_columns (df : DataFrame) : result DataFrame :=
  df ← before_outlier_test df;
  df ← remove_extreme_outliers df;
  standardize_categorical df.

Definition clean_data (df : DataFrame) : result DataFrame :=
  df ← handle_missing df;
  df ← remove_duplicates df;
  df ← standardize_types df;
  df ← handle_outliers df;
  df ← standardize_categorical df;
  df ← derive_columns df;
  final_validation df.

End clean.

(** ** [generate_data_profile] (lines 152-180)

    The report goes to the console.  Kept here are the numbers it shows
    and the exceptions that computing or formatting them raises; the
    memory usage and the dtypes are left out.  Column names are distinct,
    as [read_csv] and [clean_data] leave them. *)

(** What escapes [generate_data_profile] and [main]: an exception of
    [clean_data]; the [TypeError] or [ValueError] of adding up, or of
    formatting with [,.2f], a [total_amount] column that holds a [str] or
    a [Timestamp]; the [ZeroDivisionError] of line 180; an exception of
    [read_csv] other than [FileNotFoundError]. *)
Inductive error :=
| Cleaning (e : exn)
| TypeOrValueError
| ZeroDivisionError
| ReadError.

Inductive outcome (A : Type) :=
| Returns (a : A)
| Raises (e : error).

Arguments Returns {A} a.
Arguments Raises {A} e.

(** [Series.isnull().sum()] *)
Definition isnull_sum (vs : list value) : nat :=
  length (filter (λ v, isna v = true) vs).

(** [Series.nunique()]: the number of distinct values, missing cells
    apart. *)
Definition nunique (vs : list value) : nat :=
  length (remove_dups (filter (λ v, isna v = false) vs)).

(** One line of the column information (lines 163-168).  [null_count] is
    a numpy integer: on a table without rows [null_count / len(df)] is
    NaN ([None]), not an exception. *)
Record column_profile := {
  col : string;
  null_count : nat;
  null_pct : option Qc;
  unique_count : nat
}.

Definition column_information (df : DataFrame) : list column_profile :=
  (λ c,
     let vs := column c df in
     {| col := c;
        null_count := isnull_sum vs;
        null_pct :=
          match rows df with
          | [] => None
          | _ =>
              Some (num (Z.of_nat (isnull_sum vs))
                    / num (Z.of_nat (length (rows df))) * num 100)%Qc
          end;
        unique_count := nunique vs |}) <$> columns df.

(** Lines 170-174: sum, mean and median of [total_amount]. *)
Record revenue_statistics := {
  total_revenue : Qc;
  average_order_value : option Qc;
  median_order_value : value
}.

Definition revenue_statistics_of (df : DataFrame)
  : outcome (option revenue_statistics) :=
  if has "total_amount" df then
    match numbers (column "total_amount" df) with
    | Ok xs =>
        Returns (Some {| total_revenue := sum_Qc xs;
                         average_order_value := mean xs;
                         median_order_value := median_of xs |})
    | Raise _ => Raises TypeOrValueError
    end
  else Returns None.

(** Lines 176-180: [len(df)] and [nunique()] are Python integers, whose
    division by zero raises. *)
Record customer_statistics := {
  total_customers : nat;
  total_orders : nat;
  orders_per_customer : Qc
}.

Definition customer_statistics_of (df : DataFrame)
  : outcome (option customer_statistics) :=
  if has "customer_id" df then
    match nunique (column "customer_id" df) with
    | O => Raises ZeroDivisionError
    | n =>
        Returns (Some {| total_customers := n;
                         total_orders := length (rows df);
                         orders_per_customer :=
                           (num (Z.of_nat (length (rows df)))
                            / num (Z.of_nat n))%Qc |})
    end
  else Returns None.

Record profile := {
  shape : nat * nat;
  columns_profile : list column_profile;
  revenue : option revenue_statistics;
  customers : option customer_statistics
}.

Definition generate_data_profile (df : DataFrame) : outcome profile :=
  match revenue_statistics_of df with
  | Raises e => Raises e
  | Returns rev =>
      match customer_statistics_of df with
      | Raises e => Raises e
      | Returns cus =>
          Returns {| shape := (length (rows df), length (columns df));
                     columns_profile := column_information df;
                     revenue := rev;
                     customers := cus |}
      end
  end.

(** ** The script: [load_data], [save_cleaned_data] and [main]

    [pd.read_csv] and [DataFrame.to_csv] act on the files of the machine,
    the [world].  Reading leaves the world as it is and gives a table,
    or raises; writing gives a new world and tells whether it went
    through ([false]: it raised). *)
Inductive read :=
| Table (df : DataFrame)
| FileNotFoundError
| OtherError.

Class Files := {
  world : Type;
  read_csv : string → world → read;
  to_csv : DataFrame → string → world → world * bool
}.

Section script.
Context `{Pandas} `{Files}.

(** lines 8-16: only [FileNotFoundError] is caught. *)
Definition load_data (file_path : string) (w : world)
  : outcome (option DataFrame) :=
  match read_csv file_path w with
  | Table df => Returns (Some df)
  | FileNotFoundError => Returns None
  | OtherError => Raises ReadError
  end.

(** lines 142-150: every exception of [to_csv] is caught and reported as
    [False]. *)
Definition save_cleaned_data (df : DataFrame) (output_path : string)
    (w : world) : world * bool :=
  to_csv df output_path w.

Definition input_file : string := "raw_ecommerce_data.csv".
Definition output_file : string := "cleaned_ecommerce_data.csv".

(** lines 182-205 *)
Definition main (w : world) : world * outcome () :=
  match load_data input_file w with
  | Raises e => (w, Raises e)
  | Returns None => (w, Returns ())
  | Returns (Some df) =>
      match clean_data df with
      | Raise e => (w, Raises (Cleaning e))
      | Ok cleaned_df =>
          match generate_data_profile cleaned_df with
          | Raises e => (w, Raises e)
          | Returns _ =>
              let '(w', _) := save_cleaned_data cleaned_df output_file w in
              (w', Returns ())
          end
      end
  end.

End script.

(** ** Writing tables down *)

Definition row (i : nat) (kv : list (string * value)) : Row :=
  {| label := i; cells := list_to_map kv |}.

Definition int (z : Z) : value := VNum (num z).

(** What a table shows: per row, the index label and the cells of the
    given columns. *)
Definition view (cols : list string) (df : DataFrame)
  : list (nat * list value) :=
  (λ r, (label r, (λ c, cell r c) <$> cols)) <$> rows df.

(** ** A concrete pandas for evaluating tables

    Dates are read in the ISO form [YYYY-MM-DD] (anything else is NaT), a
    number as nanoseconds since the epoch; numbers print as Python
    prints a float with a short decimal expansion. *)

Local Open Scope Z_scope.

Definition civil_from_days (z : Z) : date :=
  let z := z + 719468 in
  let era := z / 146097 in
  let doe := z - era * 146097 in
  let yoe := (doe - doe / 1460 + doe / 36524 - doe / 146096) / 365 in
  let doy := doe - (365 * yoe + yoe / 4 - yoe / 100) in
  let mp := (5 * doy + 2) / 153 in
  let d := doy - (153 * mp + 2) / 5 + 1 in
  let m := if mp <? 10 then mp + 3 else mp - 9 in
  Date (if m <=? 2 then yoe + era * 400 + 1 else yoe + era * 400) m d.

Definition digit_value (c : ascii) : option Z :=
  if is_digit c then Some (Z.of_nat (nat_of_ascii c) - 48) else None.

Fixpoint decimal (acc : Z) (s : list ascii) : option Z :=
  match s with
  | [] => Some acc
  | c :: s' => d ← digit_value c; decimal (10 * acc + d) s'
  end.

Definition is_leap (y : Z) : bool :=
  ((y mod 4 =? 0) && negb (y mod 100 =? 0)) || (y mod 400 =? 0).

Definition days_in_month (y m : Z) : Z :=
  if m =? 2 then (if is_leap y then 29 else 28)
  else if (m =? 4) || (m =? 6) || (m =? 9) || (m =? 11) then 30 else 31.

Definition parse_iso (s : string) : value :=
  match list_ascii_of_string s with
  | [y1; y2; y3; y4; "-"; m1; m2; "-"; d1; d2]%char =>
      match decimal 0 [y1; y2; y3; y4], decimal 0 [m1; m2], decimal 0 [d1; d2] with
      | Some y, Some m, Some d =>
          if (1 <=? m) && (m <=? 12) && (1 <=? d) && (d <=? days_in_month y m)
          then VDate (Date y m d) else VNaN
      | _, _, _ => VNaN
      end
  | _ => VNaN
  end.

Definition floor_Qc (x : Qc) : Z := Qfloor x.

Definition iso_to_datetime (v : value) : value :=
  match v with
  | VNaN => VNaN
  | VNum x => VDate (civil_from_days (floor_Qc x / 86400000000000))
  | VStr s => parse_iso s
  | VDate d => VDate d
  end.

(** [digits k f]: the first [k] decimals of the fraction [f] in [[0,1)],
    without trailing zeros. *)
Fixpoint decimals (k : nat) (f : Qc) : string :=
  match k with
  | O => ""
  | S k' =>
      if bool_decide (f = num 0) then ""
      else
        let d := floor_Qc (f * num 10) in
        (pretty d ++ decimals k' (f * num 10 - num d)%Qc)%string
  end.

Definition float_repr (x : Qc) : string :=
  let i := floor_Qc x in
  let f := decimals 17 (x - num i)%Qc in
  (pretty i ++ "." ++ (if bool_decide (f = "") then "0" else f))%string.

Definition date_repr (d : date) : string :=
  (pretty (year d) ++ "-" ++ pretty (month d) ++ "-" ++ pretty (day d))%string.

#[global] Program Instance iso_pandas : Pandas := {|
  to_datetime := fmap iso_to_datetime;
  str_of_number := float_repr;
  str_of_timestamp := date_repr
|}.
Next Obligation. intros l. by rewrite length_fmap. Qed.
Next Obligation.
  intros l. apply Forall_fmap, Forall_true. intros [ | x | s | d ]; simpl; auto.
  unfold parse_iso. repeat case_match; auto.
Qed.
Next Obligation.
  intros l Hl. induction Hl as [ | v l Hv _ IH ]; [ done | ].
  rewrite fmap_cons, IH. by destruct v.
Qed.

(** ** Example tables *)

Local Open Scope string_scope.

Definition all_columns : list string :=
  ["order_id"; "customer_id"; "order_date"; "total_amount"; "quantity";
   "unit_price"; "customer_age"; "customer_email"; "customer_phone";
   "product_category"; "customer_gender"; "payment_method"].

Definition no_table : DataFrame := {| columns := []; rows := [] |}.

(** The table [clean_data] returns, for a run that is known to return. *)
Definition returned (r : result DataFrame) : DataFrame :=
  match r with Ok df => df | Raise _ => no_table end.

(** Eight orders: a duplicate of order 2 (row 2), a malformed address
    (row 3), a negative amount (row 4), a missing customer (row 5) and an
    unreadable date (row 6). *)
Definition sample : DataFrame :=
  {| columns := all_columns;
     rows :=
       (λ '(i, vals), row i (zip all_columns vals)) <$>
       [(0%nat, [int 1; VStr "A"; VStr "2023-01-15"; int 100; int 2; int 50;
            int 30; VStr "ann@example.com"; VStr "(555) 123-4567";
            VStr " books"; VStr "M"; VStr "credit card"]);
        (1%nat, [int 2; VStr "B"; VStr "2023-02-20"; int 80; int 1; int 80;
            VNaN; VStr "bob@example.org"; VNaN; VNaN; VStr "x"; VNaN]);
        (2%nat, [int 2; VStr "B"; VStr "2023-02-21"; int 80; int 1; int 80;
            int 41; VStr "bob@example.org"; VNaN; VStr "toys"; VStr "F";
            VStr "cash"]);
        (3%nat, [int 3; VStr "C"; VStr "2023-03-01"; int 60; int 3; int 20;
            int 52; VStr "not-an-email"; VNaN; VStr "toys"; VStr "F";
            VStr "cash"]);
        (4%nat, [int 4; VStr "D"; VStr "2023-03-02"; int (-10); int 1; int 10;
            int 52; VStr "dan@example.com"; VNaN; VStr "toys"; VStr "F";
            VStr "cash"]);
        (5%nat, [int 5; VNaN; VStr "2023-03-03"; int 10; int 1; int 10;
            int 52; VStr "eve@example.com"; VNaN; VStr "toys"; VStr "F";
            VStr "cash"]);
        (6%nat, [int 6; VStr "F"; VStr "someday"; int 10; int 1; int 10;
            int 52; VStr "fay@example.com"; VNaN; VStr "toys"; VStr "F";
            VStr "cash"]);
        (7%nat, [int 7; VStr "G"; VStr "2023-04-04"; int 120; int 4; int 30;
            int 70; VStr "gil@example.com"; VStr "555.987.6543";
            VStr "GARDEN tools"; VStr "female"; VStr "paypal "])] |}.

Definition sample_cleaned : DataFrame :=
  Eval vm_compute in returned (clean_data sample).

(** Two rows with the same [order_id]; the first has no customer. *)
Definition same_order_twice : DataFrame :=
  {| columns := ["order_id"; "customer_id"; "order_date"];
     rows :=
       [row 0 [("order_id", int 5); ("customer_id", VNaN);
               ("order_date", VStr "2023-01-01")];
        row 1 [("order_id", int 5); ("customer_id", VStr "A");
               ("order_date", VStr "2023-01-02")]] |}.

Definition same_order_twice_cleaned : DataFrame :=
  Eval vm_compute in returned (clean_data same_order_twice).

(** One order of a customer whose age is recorded as 0. *)
Definition age_zero : DataFrame :=
  {| columns := ["order_id"; "order_date"; "customer_age"];
     rows :=
       [row 0 [("order_id", int 1); ("order_date", VStr "2023-01-15");
               ("customer_age", int 0)]] |}.

Definition age_zero_cleaned : DataFrame :=
  Eval vm_compute in returned (clean_data age_zero).

(** Two orders in a table that has no [order_id] column, and two in a
    table that has no [order_date] column. *)
Definition no_order_id : DataFrame :=
  {| columns := ["customer_id"; "order_date"; "total_amount"];
     rows :=
       [row 0 [("customer_id", VStr "A"); ("order_date", VStr "2023-01-15");
               ("total_amount", int 100)];
        row 1 [("customer_id", VStr "B"); ("order_date", VStr "2023-01-16");
               ("total_amount", int 50)]] |}.

Definition no_order_date : DataFrame :=
  {| columns := ["order_id"; "customer_id"; "total_amount"];
     rows :=
       [row 0 [("order_id", int 1); ("customer_id", VStr "A");
               ("total_amount", int 100)];
        row 1 [("order_id", int 2); ("customer_id", VStr "B");
               ("total_amount", int 50)]] |}.

(** Thirteen orders: eleven of amount 1, one of 100, one of 1000000. *)
Definition amounts (l : list Z) : DataFrame :=
  {| columns := ["order_id"; "order_date"; "total_amount"];
     rows :=
       imap (λ i a, row i [("order_id", int (Z.of_nat i));
                           ("order_date", VStr "2023-01-15");
                           ("total_amount", int a)]) l |}.

Definition spread : DataFrame :=
  amounts [1; 1; 1; 1; 1; 1; 1; 1; 1; 1; 1; 100; 1000000]%Z.

Definition spread_cleaned : DataFrame :=
  Eval vm_compute in returned (clean_data spread).





(** One order whose [product_category] is the number 7. *)
Definition numbered_category : DataFrame :=
  {| columns := ["order_id"; "order_date"; "product_category"];
     rows :=
       [row 0 [("order_id", int 1); ("order_date", VStr "2023-01-15");
               ("product_category", int 7)]] |}.

(** ** Files that hold tables

    A world for evaluating [main]: a file is the table written to it,
    every path can be written, and [to_csv(index=False)] leaves the index
    out, so that the rows are numbered afresh. *)

Definition reset_index (df : DataFrame) : DataFrame :=
  {| columns := columns df;
     rows := imap (λ i r, {| label := i; cells := cells r |}) (rows df) |}.

#[global] Instance table_files : Files := {|
  world := gmap string DataFrame;
  read_csv p w :=
    match w !! p with
    | Some df => Table df
    | None => FileNotFoundError
    end;
  to_csv df p w := (<[p := reset_index df]> w, true)
|}.

(** The raw file holds [sample]. *)
Definition sample_world : world := {[ input_file := sample ]}.

(** The files after a run of [main] on them. *)
Definition sample_world_cleaned : world :=
  Eval vm_compute in (main sample_world).1.

(** The profile [generate_data_profile] shows, when it returns. *)
Definition shown (o : outcome profile) : profile :=
  match o with
  | Returns p => p
  | Raises _ =>
      {| shape := (O, O); columns_profile := []; revenue := None;
         customers := None |}
  end.

Definition sample_profile : profile :=
  Eval vm_compute in shown (generate_data_profile sample_cleaned).

(** * Vocabulary of the properties *)

Local Open Scope list_scope.

Section vocabulary.
Context `{Pandas}.

#[global] Instance exn_eq_dec : EqDecision exn.
Proof. solve_decision. Defined.

#[global] Instance result_eq_dec `{EqDecision A} : EqDecision (result A).
Proof. solve_decision. Defined.

#[global] Instance Row_eq_dec : EqDecision Row.
Proof. solve_decision. Defined.

#[global] Instance DataFrame_eq_dec : EqDecision DataFrame.
Proof. solve_decision. Defined.

(** The columns that [clean_data] writes. *)
Definition rewritten_columns : list string :=
  ["customer_age"; "product_category"; "order_date"; "customer_phone";
   "customer_gender"; "payment_method"; "order_year"; "order_month";
   "order_day"; "order_weekday"; "order_quarter"; "age_group";
   "revenue_per_item"].

(** The columns that the derived-column stage adds. *)
Definition date_component_columns : list string :=
  ["order_year"; "order_month"; "order_day"; "order_weekday"; "order_quarter"].

Definition derived_columns : list string :=
  date_component_columns ++ ["age_group"; "revenue_per_item"].

(** [same_outside W o i]: row [o] has the index label of row [i] and the
    entries of [i] in every column that is not in [W]. *)
Definition same_outside (W : list string) (o i : Row) : Prop :=
  label o = label i ∧ ∀ c, c ∉ W → cells o !! c = cells i !! c.

(** [traces W out inp]: the rows [out] come, in order, from some of the
    rows [inp], each [same_outside W] the row it comes from. *)
Inductive traces (W : list string) : list Row → list Row → Prop :=
| traces_nil : traces W [] []
| traces_keep o i out inp :
    same_outside W o i → traces W out inp → traces W (o :: out) (i :: inp)
| traces_drop i out inp :
    traces W out inp → traces W out (i :: inp).

(** [evolves W df df']: the rows of [df'] trace back to rows of [df], no
    column of [df] is lost and every new column is one of [W]. *)
Record evolves (W : list string) (df df' : DataFrame) : Prop := {
  ev_rows : traces W (rows df') (rows df);
  ev_columns : columns df ⊆ columns df';
  ev_new : ∀ c, c ∈ columns df' → c ∈ columns df ∨ c ∈ W
}.

Definition is_positive (v : value) : Prop :=
  ∃ x, v = VNum x ∧ (num 0 < x)%Qc.


Definition is_text (v : value) : Prop := ∃ s, v = VStr s.

Definition text_or_missing (v : value) : Prop := v = VNaN ∨ is_text v.

#[global] Instance text_or_missing_dec v : Decision (text_or_missing v).
Proof.
  destruct v as [ | x | s | d ];
    [ left; by left | right | left; right; by exists s | right ];
    by intros [ ? | [? ?] ].
Defined.

Definition is_number_or_missing (v : value) : Prop :=
  v = VNaN ∨ ∃ x, v = VNum x.

Definition number_of (v : value) : option Qc :=
  match v with VNum x => Some x | _ => None end.

(** [o] comes from the first row of [inp] that has its key in column [c],
    among the rows that satisfy [P]. *)
Definition retained_first (c : string) (inp : list Row) (P : Row → Prop)
    (o : Row) : Prop :=
  ∃ pre i post,
    inp = pre ++ i :: post ∧ label o = label i ∧ cell o c = cell i c ∧
    P i ∧ Forall (λ x, P x → cell x c ≠ cell i c) pre.

(** The critical columns that [df] has are all filled in row [r]. *)
Definition complete_in (df : DataFrame) (r : Row) : Prop :=
  complete (filter (λ c, has c df) critical_columns) r = true.

(** The bound of the outlier test, taken over the table itself. *)
Definition within_own_bound (df : DataFrame) : Prop :=
  "total_amount" ∈ columns df →
  ∃ xs, numbers (column "total_amount" df) = Ok xs ∧
        Forall (λ r, ∃ x m v,
                  cell r "total_amount" = VNum x ∧
                  mean xs = Some m ∧ variance xs = Some v ∧
                  ((x - m) * (x - m) ≤ num 9 * v)%Qc) (rows df).

(** The bins of [age_group] as the code cuts them: left-open and
    right-closed. *)
Definition age_group_of (age group : value) : Prop :=
  match age with
  | VNaN => group = VNaN
  | VNum x =>
      ((num 0 < x ∧ x ≤ num 25)%Qc → group = VStr "18-25") ∧
      ((num 25 < x ∧ x ≤ num 35)%Qc → group = VStr "26-35") ∧
      ((num 35 < x ∧ x ≤ num 50)%Qc → group = VStr "36-50") ∧
      ((num 50 < x ∧ x ≤ num 65)%Qc → group = VStr "51-65") ∧
      ((num 65 < x ∧ x ≤ num 100)%Qc → group = VStr "65+") ∧
      ((x ≤ num 0 ∨ num 100 < x)%Qc → group = VNaN)
  | VStr _ | VDate _ => False
  end.

(** The bins of [age_group] as the specification writes them: [0,25],
    [26,35], [36,50], [51,65], [65,100], the first that contains the age;
    no label outside [0,100]. *)
Definition stated_age_group (x : Qc) : value :=
  if bool_decide (num 0 ≤ x)%Qc && bool_decide (x ≤ num 25)%Qc
  then VStr "18-25"
  else if bool_decide (num 26 ≤ x)%Qc && bool_decide (x ≤ num 35)%Qc
  then VStr "26-35"
  else if bool_decide (num 36 ≤ x)%Qc && bool_decide (x ≤ num 50)%Qc
  then VStr "36-50"
  else if bool_decide (num 51 ≤ x)%Qc && bool_decide (x ≤ num 65)%Qc
  then VStr "51-65"
  else if bool_decide (num 65 ≤ x)%Qc && bool_decide (x ≤ num 100)%Qc
  then VStr "65+"
  else VNaN.


(** Row [r] has an entry for column [c], and the entry satisfies [Q]. *)
Definition stored (c : string) (Q : value → Prop) (r : Row) : Prop :=
  ∃ v, cells r !! c = Some v ∧ Q v.

(** Row [r] holds the date components of its own [order_date]. *)
Definition date_components_stored (r : Row) : Prop :=
  cells r !! "order_year" = Some (dt_year (cell r "order_date")) ∧
  cells r !! "order_month" = Some (dt_month (cell r "order_date")) ∧
  cells r !! "order_day" = Some (dt_day (cell r "order_date")) ∧
  cells r !! "order_weekday" = Some (dt_day_name (cell r "order_date")) ∧
  cells r !! "order_quarter" = Some (dt_quarter (cell r "order_date")).


(** The columns on which the code does arithmetic, and a table whose
    cells in these columns are numbers or missing. *)
Definition numeric_columns : list string :=
  ["customer_age"; "quantity"; "unit_price"; "total_amount"].

Definition well_typed (df : DataFrame) : Prop :=
  ∀ c, c ∈ numeric_columns → c ∈ columns df →
       Forall (λ r, is_number_or_missing (cell r c)) (rows df).

(** A table on which no step of [clean_data] raises. *)
Definition ready (df : DataFrame) : Prop :=
  "order_id" ∈ columns df ∧ "order_date" ∈ columns df ∧ well_typed df.

#[global] Instance is_number_or_missing_dec v : Decision (is_number_or_missing v).
Proof.
  destruct v as [ | x | s | d ];
    [ left; by left | left; right; by exists x | right | right ];
    by intros [ ? | [? ?] ].
Defined.

(** [cols'] is [cols] followed by columns of [N]. *)
Definition extends (N cols cols' : list string) : Prop :=
  ∃ added, cols' = cols ++ added ∧ added ⊆ N.

(** One order only. *)
Definition single_order : DataFrame :=
  {| columns := ["order_id"; "customer_id"; "order_date"; "total_amount";
                 "quantity"];
     rows :=
       [row 0 [("order_id", int 1); ("customer_id", VStr "A");
               ("order_date", VStr "2023-01-15"); ("total_amount", int 100);
               ("quantity", int 2)]] |}.


(** The raw file holds one order. *)
Definition single_order_world : world := {[ input_file := single_order ]}.

(** [follows R out inp]: the rows [out] come, in order, from some of the
    rows [inp], each related by [R] to the row it comes from. *)
Inductive follows (R : Row → Row → Prop) : list Row → list Row → Prop :=
| follows_nil : follows R [] []
| follows_keep o i out inp :
    R o i → follows R out inp → follows R (o :: out) (i :: inp)
| follows_drop i out inp :
    follows R out inp → follows R out (i :: inp).

(** Row [o] has the index label of row [i] and, in column [c], what [g]
    makes of the cell of [i]. *)
Definition rewritten (c : string) (g : value → value) (o i : Row) : Prop :=
  label o = label i ∧ cell o c = g (cell i c).

(** Lines 93-97 on one cell: [map(gender_mapping).fillna('Unknown')]. *)
Definition gender_of (v : value) : value :=
  fill (VStr "Unknown") (map_dict gender_mapping v).



End vocabulary.

(** * Properties *)

Local Open Scope list_scope.

(** ** Exceptions and elementwise evaluation *)

Lemma bind_Ok {A B} (m : result A) (f : A → result B) (b : B) :
  m ≫= f = Ok b ↔ ∃ a, m = Ok a ∧ f a = Ok b.
Proof.
  destruct m as [ a | e ]; simpl; split.
  - eauto.
  - by intros (a' & [= <-] & ?).
  - discriminate.
  - by intros (? & ? & ?).
Qed.

(** Split a hypothesis [m ≫= f = Ok b] into its two steps. *)
Ltac inv_bind H :=
  lazymatch type of H with
  | mbind _ _ = Ok _ =>
      let a := fresh "df" in
      let H1 := fresh "Hstep" in
      apply bind_Ok in H; destruct H as (a & H1 & H)
  end.

Lemma each_Ok {A B} (f : A → result B) l bs :
  each f l = Ok bs ↔ Forall2 (λ a b, f a = Ok b) l bs.
Proof.
  revert bs. induction l as [ | a l IH ]; intros bs; simpl.
  - split; [ intros [= <-]; constructor | by inversion 1 ].
  - rewrite bind_Ok. split.
    + intros (b & Hb & Hrest). apply bind_Ok in Hrest as (bs' & Hbs & [= <-]).
      constructor; [ done | by apply IH ].
    + inversion 1 as [ | ? b ? bs' Hb Hbs ]; subst. exists b. split; [ done | ].
      apply bind_Ok. exists bs'. split; [ by apply IH | done ].
Qed.

Lemma each_length {A B} (f : A → result B) l bs :
  each f l = Ok bs → length bs = length l.
Proof. intros Hl%each_Ok. symmetry. by eapply Forall2_length. Qed.

Lemma each_pure {A B} (f : A → result B) (g : A → B) l :
  Forall (λ a, f a = Ok (g a)) l → each f l = Ok (g <$> l).
Proof.
  intros Hl. apply each_Ok. induction Hl; simpl; by constructor.
Qed.

(** ** Cells *)

Lemma cell_set_cell c v r c' :
  cell (set_cell c v r) c' = if decide (c = c') then v else cell r c'.
Proof.
  unfold cell, set_cell; simpl. rewrite lookup_insert.
  by destruct (decide (c = c')).
Qed.

Lemma cell_set_cell_eq c v r : cell (set_cell c v r) c = v.
Proof. rewrite cell_set_cell. by rewrite decide_True. Qed.

Lemma cell_set_cell_ne c v r c' : c ≠ c' → cell (set_cell c v r) c' = cell r c'.
Proof. intros. rewrite cell_set_cell. by rewrite decide_False. Qed.

Lemma has_true c df : has c df = true ↔ c ∈ columns df.
Proof. unfold has. by rewrite bool_decide_eq_true. Qed.

Lemma has_false c df : has c df = false ↔ c ∉ columns df.
Proof. unfold has. by rewrite bool_decide_eq_false. Qed.

Lemma add_column_subseteq c cols : cols ⊆ add_column c cols.
Proof.
  unfold add_column. case_bool_decide; [ done | ].
  intros x Hx. apply elem_of_app. by left.
Qed.

Lemma add_column_present c cols : c ∈ cols → add_column c cols = cols.
Proof. intros. unfold add_column. by rewrite bool_decide_eq_true_2. Qed.

(** ** Rows are only dropped or rewritten in place

    [traces W out inp]: the rows [out] come, in order, from some of the
    rows [inp]; each keeps the index label of the row it comes from and
    its cells in all columns except those of [W]. *)

Lemma same_outside_cell W o i c :
  same_outside W o i → c ∉ W → cell o c = cell i c.
Proof. intros [_ Hc] Hn. unfold cell. by rewrite Hc. Qed.

Create HintDb frame.
#[global] Hint Constructors traces : frame.

Lemma same_outside_refl W r : same_outside W r r.
Proof. by split. Qed.

Lemma same_outside_trans W a b c :
  same_outside W a b → same_outside W b c → same_outside W a c.
Proof.
  intros [Hl1 Hc1] [Hl2 Hc2]. split; [ congruence | ].
  intros x Hx. rewrite Hc1, Hc2; done.
Qed.

Lemma same_outside_weaken W W' o i :
  W ⊆ W' → same_outside W o i → same_outside W' o i.
Proof. intros HW [Hl Hc]. split; [ done | ]. intros c Hc'. apply Hc. set_solver. Qed.

Lemma same_outside_set_cell W c v r : c ∈ W → same_outside W (set_cell c v r) r.
Proof.
  intros Hc. split; [ done | ]. intros c' Hc'. simpl.
  apply lookup_insert_ne. by intros ->.
Qed.

#[global] Hint Resolve same_outside_refl same_outside_set_cell : frame.

Lemma traces_refl W l : traces W l l.
Proof. induction l; auto with frame. Qed.

Lemma traces_nil_l W l : traces W [] l.
Proof. induction l; auto with frame. Qed.

Lemma traces_trans W a b c : traces W a b → traces W b c → traces W a c.
Proof.
  intros Hab Hbc. revert a Hab.
  induction Hbc as [ | o i out inp Hoi Hbc IH | i out inp Hbc IH ]; intros a Hab.
  - done.
  - inversion Hab as [ | o' ? out' ? Ho' Hab' | ? ? ? Hab' ]; subst.
    + apply traces_keep; [ by eapply same_outside_trans | by apply IH ].
    + apply traces_drop. by apply IH.
  - apply traces_drop. by apply IH.
Qed.

Lemma traces_weaken W W' out inp :
  W ⊆ W' → traces W out inp → traces W' out inp.
Proof.
  intros HW. induction 1; eauto using same_outside_weaken with frame.
Qed.

Lemma traces_sublist W (out inp : list Row) :
  out `sublist_of` inp → traces W out inp.
Proof. induction 1; auto with frame. Qed.

Lemma traces_fmap W (f : Row → Row) l :
  (∀ r, same_outside W (f r) r) → traces W (f <$> l) l.
Proof. intros Hf. induction l; simpl; auto with frame. Qed.

Lemma traces_zip_with W c (l : list Row) (vals : list value) :
  c ∈ W → traces W (zip_with (λ r v, set_cell c v r) l vals) l.
Proof.
  intros Hc. revert vals. induction l as [ | r l IH ]; intros [ | v vals ]; simpl;
    auto using traces_nil_l with frame.
Qed.

Lemma traces_take_mask W mask l : traces W (take_mask mask l) l.
Proof.
  revert l. induction mask as [ | [] mask IH ]; intros [ | r l ]; simpl;
    auto using traces_nil_l with frame.
Qed.

Lemma traces_Forall W (P : Row → Prop) out inp :
  (∀ o i, same_outside W o i → P i → P o) →
  traces W out inp → Forall P inp → Forall P out.
Proof.
  intros HP. induction 1 as [ | o i out inp Hoi _ IH | i out inp _ IH ];
    intros Hinp; [ done | | ].
  - apply Forall_cons in Hinp as [Hi Hinp]. constructor; eauto.
  - apply Forall_cons in Hinp as [_ Hinp]. auto.
Qed.

Lemma traces_fmap_sublist {A} W (g : Row → A) out inp :
  (∀ o i, same_outside W o i → g o = g i) →
  traces W out inp → g <$> out `sublist_of` g <$> inp.
Proof.
  intros Hg. induction 1 as [ | o i out inp Hoi _ IH | i out inp _ IH ]; simpl.
  - constructor.
  - rewrite (Hg o i Hoi). by apply sublist_skip.
  - by apply sublist_cons.
Qed.

Lemma evolves_refl W df : evolves W df df.
Proof. split; [ apply traces_refl | done | auto ]. Qed.

(** A step that keeps the column index and only drops or rewrites rows. *)
Lemma evolves_rows W df df' :
  columns df' = columns df → traces W (rows df') (rows df) → evolves W df df'.
Proof. intros Hc Hr. split; [ done | by rewrite Hc | rewrite Hc; auto ]. Qed.

Lemma evolves_weaken W W' df df' :
  W ⊆ W' → evolves W df df' → evolves W' df df'.
Proof.
  intros HW [Hr Hc Hn]. split; [ by eapply traces_weaken | done | ].
  intros c Hin. destruct (Hn c Hin); [ by left | right; by apply HW ].
Qed.

Lemma evolves_trans W1 W2 a b c :
  evolves W1 a b → evolves W2 b c → evolves (W1 ++ W2) a c.
Proof.
  intros [Hr1 Hc1 Hn1] [Hr2 Hc2 Hn2]. split.
  - eapply traces_trans; eapply traces_weaken; try eassumption; set_solver.
  - set_solver.
  - intros x Hx. destruct (Hn2 x Hx) as [Hb | ?]; [ | set_solver ].
    destruct (Hn1 x Hb); set_solver.
Qed.

(** ** The frame operations *)


Lemma fillna_evolves c v df : evolves [c] df (fillna c v df).
Proof.
  apply evolves_rows; [ done | ]. simpl. apply traces_fmap. intros r.
  destruct (isna (cell r c)); auto with frame. apply same_outside_set_cell. set_solver.
Qed.

Lemma dropna_evolves cols df : evolves [] df (dropna cols df).
Proof. apply evolves_rows; [ done | ]. apply traces_sublist, sublist_filter. Qed.

Lemma dropna_complete cols df :
  Forall (λ r, complete cols r = true) (rows (dropna cols df)).
Proof.
  apply Forall_forall. intros r [Hr _]%list_elem_of_filter.
  by apply Is_true_true.
Qed.

Lemma complete_spec cols r :
  complete cols r = true ↔ ∀ c, c ∈ cols → cell r c ≠ VNaN.
Proof.
  unfold complete. rewrite forallb_forall. split.
  - intros Hc c Hin%list_elem_of_In Hna. specialize (Hc c Hin). by rewrite Hna in Hc.
  - intros Hc c Hin%list_elem_of_In. specialize (Hc c Hin). by destruct (cell r c).
Qed.

Lemma select_evolves p df : evolves [] df (select p df).
Proof. apply evolves_rows; [ done | ]. apply traces_sublist, sublist_filter. Qed.

Lemma select_holds p df : Forall (λ r, p r = true) (rows (select p df)).
Proof.
  apply Forall_forall. intros r [Hr _]%list_elem_of_filter.
  by apply Is_true_true.
Qed.

Lemma set_column_evolves c vals df : evolves [c] df (set_column c vals df).
Proof.
  split; simpl.
  - apply traces_zip_with. set_solver.
  - apply add_column_subseteq.
  - unfold add_column. case_bool_decide; set_solver.
Qed.

Lemma transform_evolves c f df : evolves [c] df (transform c f df).
Proof. apply set_column_evolves. Qed.

Lemma assign_evolves c f df df' : assign c f df = Ok df' → evolves [c] df df'.
Proof.
  unfold assign. intros Hdf. inv_bind Hdf. injection Hdf as <-.
  apply set_column_evolves.
Qed.

Lemma where_evolves p df df' : where_ p df = Ok df' → evolves [] df df'.
Proof.
  unfold where_. intros Hdf. inv_bind Hdf. injection Hdf as <-.
  apply evolves_rows; [ done | apply traces_take_mask ].
Qed.

Lemma take_mask_holds (p : Row → result bool) l mask :
  each p l = Ok mask → Forall (λ r, p r = Ok true) (take_mask mask l).
Proof.
  intros Hm%each_Ok. induction Hm as [ | r b l mask Hb _ IH ]; simpl; [ done | ].
  destruct b; [ by constructor | done ].
Qed.

Lemma where_holds p df df' :
  where_ p df = Ok df' → Forall (λ r, p r = Ok true) (rows df').
Proof.
  unfold where_. intros Hdf. inv_bind Hdf. injection Hdf as <-.
  by apply take_mask_holds.
Qed.

Lemma where_columns p df df' : where_ p df = Ok df' → columns df' = columns df.
Proof. unfold where_. intros Hdf. inv_bind Hdf. by injection Hdf as <-. Qed.


(** *** [drop_duplicates] *)

Lemma keep_first_sublist c seen l : keep_first c seen l `sublist_of` l.
Proof.
  revert seen. induction l as [ | r l IH ]; intros seen; simpl; [ constructor | ].
  case_bool_decide; [ apply sublist_cons | apply sublist_skip ]; apply IH.
Qed.

Lemma keep_first_fresh c seen l r :
  r ∈ keep_first c seen l → cell r c ∉ seen.
Proof.
  revert seen. induction l as [ | r' l IH ]; intros seen; simpl.
  - by intros ?%elem_of_nil.
  - case_bool_decide as Hseen; [ apply IH | ].
    intros [-> | Hin]%elem_of_cons; [ done | ].
    apply IH in Hin. set_solver.
Qed.

Lemma keep_first_NoDup c seen l :
  NoDup ((λ r, cell r c) <$> keep_first c seen l).
Proof.
  revert seen. induction l as [ | r l IH ]; intros seen; simpl; [ constructor | ].
  case_bool_decide as Hseen; [ apply IH | ].
  rewrite fmap_cons. constructor; [ | apply IH ].
  intros (r' & Heq & Hin)%list_elem_of_fmap.
  apply keep_first_fresh in Hin. rewrite <- Heq in Hin. set_solver.
Qed.

(** Every row that is kept is the first of the list with its key, and its
    key has not been seen before. *)
Lemma keep_first_first c seen l r :
  r ∈ keep_first c seen l →
  ∃ pre post, l = pre ++ r :: post ∧
              Forall (λ x, cell x c ≠ cell r c) pre.
Proof.
  revert seen. induction l as [ | r' l IH ]; intros seen; simpl.
  - by intros ?%elem_of_nil.
  - case_bool_decide as Hseen.
    + intros Hin. pose proof (keep_first_fresh _ _ _ _ Hin) as Hfresh.
      destruct (IH _ Hin) as (pre & post & -> & Hpre).
      exists (r' :: pre), post. split; [ done | ].
      constructor; [ | done ]. intros Heq. by rewrite Heq in Hseen.
    + intros [-> | Hin]%elem_of_cons.
      * exists [], l. by split.
      * pose proof (keep_first_fresh _ _ _ _ Hin) as Hfresh.
        destruct (IH _ Hin) as (pre & post & -> & Hpre).
        exists (r' :: pre), post. split; [ done | ].
        constructor; [ | done ]. intros Heq. apply Hfresh. rewrite <- Heq. set_solver.
Qed.


Lemma drop_duplicates_rows c df df' :
  c ∈ columns df → drop_duplicates c df = Ok df' →
  columns df' = columns df ∧ rows df' = keep_first c [] (rows df).
Proof.
  intros Hc. unfold drop_duplicates, is_empty.
  destruct (columns df) as [ | c0 cols ] eqn:Hcols; [ by apply elem_of_nil in Hc | ].
  destruct (rows df) as [ | r l ] eqn:Hrows.
  - intros [= <-]. by rewrite Hcols, Hrows.
  - replace (has c df) with true
      by (symmetry; apply has_true; by rewrite Hcols).
    by intros [= <-].
Qed.

Lemma drop_duplicates_evolves c df df' :
  drop_duplicates c df = Ok df' → evolves [] df df'.
Proof.
  unfold drop_duplicates. destruct (is_empty df).
  - intros [= <-]. apply evolves_refl.
  - destruct (has c df); [ | discriminate ]. intros [= <-].
    apply evolves_rows; [ done | ]. apply traces_sublist, keep_first_sublist.
Qed.

(** ** The steps of [clean_data] *)

Section steps.
Context `{Pandas}.

Lemma fill_customer_age_evolves df df' :
  fill_customer_age df = Ok df' → evolves ["customer_age"] df df'.
Proof.
  unfold fill_customer_age. destruct (has _ df).
  - intros Hdf. inv_bind Hdf. injection Hdf as <-. apply fillna_evolves.
  - intros [= <-]. apply evolves_refl.
Qed.

Lemma fill_product_category_evolves df df' :
  fill_product_category df = Ok df' → evolves ["product_category"] df df'.
Proof.
  unfold fill_product_category. destruct (has _ df); intros [= <-];
    [ apply fillna_evolves | apply evolves_refl ].
Qed.

Lemma drop_missing_critical_evolves df df' :
  drop_missing_critical df = Ok df' → evolves [] df df'.
Proof. intros [= <-]. apply dropna_evolves. Qed.

Lemma remove_duplicates_evolves df df' :
  remove_duplicates df = Ok df' → evolves [] df df'.
Proof. apply drop_duplicates_evolves. Qed.

Lemma evolves_step W' W a b c :
  evolves W' a b → W' ⊆ W → evolves W b c → evolves W a c.
Proof.
  intros Hab HW Hbc. apply (evolves_weaken (W' ++ W)); [ set_solver | ].
  by eapply evolves_trans.
Qed.

Lemma evolves_step_r W' W a b c :
  evolves W a b → evolves W' b c → W' ⊆ W → evolves W a c.
Proof.
  intros Hab Hbc HW. apply (evolves_weaken (W ++ W')); [ set_solver | ].
  by eapply evolves_trans.
Qed.

Lemma clean_order_date_evolves df df' :
  clean_order_date df = Ok df' → evolves ["order_date"] df df'.
Proof.
  unfold clean_order_date. destruct (has _ df); intros [= <-];
    [ | apply evolves_refl ].
  eapply evolves_step; [ apply set_column_evolves | done | ].
  eapply evolves_weaken; [ | apply dropna_evolves ]. set_solver.
Qed.

Lemma clean_customer_email_evolves df df' :
  clean_customer_email df = Ok df' → evolves [] df df'.
Proof.
  unfold clean_customer_email. destruct (has _ df); intros [= <-];
    [ apply select_evolves | apply evolves_refl ].
Qed.

Lemma clean_customer_phone_evolves df df' :
  clean_customer_phone df = Ok df' → evolves ["customer_phone"] df df'.
Proof.
  unfold clean_customer_phone. destruct (has _ df); intros [= <-];
    [ apply transform_evolves | apply evolves_refl ].
Qed.

Lemma positive_evolves c df df' : positive c df = Ok df' → evolves [] df df'.
Proof.
  unfold positive. destruct (has _ df); [ apply where_evolves | ].
  intros [= <-]. apply evolves_refl.
Qed.

Lemma remove_extreme_outliers_evolves df df' :
  remove_extreme_outliers df = Ok df' → evolves [] df df'.
Proof.
  unfold remove_extreme_outliers. destruct (has _ df).
  - intros Hdf. inv_bind Hdf. by eapply where_evolves.
  - intros [= <-]. apply evolves_refl.
Qed.

Lemma title_case_evolves c df df' : title_case c df = Ok df' → evolves [c] df df'.
Proof.
  unfold title_case. destruct (has _ df); intros [= <-];
    [ apply transform_evolves | apply evolves_refl ].
Qed.

Lemma standardize_customer_gender_evolves df df' :
  standardize_customer_gender df = Ok df' → evolves ["customer_gender"] df df'.
Proof.
  unfold standardize_customer_gender. destruct (has _ df); intros [= <-];
    [ apply transform_evolves | apply evolves_refl ].
Qed.

Lemma date_components_evolves df df' :
  date_components df = Ok df' → evolves date_component_columns df df'.
Proof.
  unfold date_components. destruct (has _ df); intros [= <-];
    [ | apply evolves_refl ].
  repeat (eapply evolves_step_r;
          [ | apply transform_evolves | unfold date_component_columns; set_solver ]).
  apply evolves_refl.
Qed.

Lemma age_groups_evolves df df' :
  age_groups df = Ok df' → evolves ["age_group"] df df'.
Proof.
  unfold age_groups. destruct (has _ df); [ apply assign_evolves | ].
  intros [= <-]. apply evolves_refl.
Qed.

Lemma revenue_per_item_evolves df df' :
  revenue_per_item df = Ok df' → evolves ["revenue_per_item"] df df'.
Proof.
  unfold revenue_per_item. destruct (_ && _); [ apply assign_evolves | ].
  intros [= <-]. apply evolves_refl.
Qed.

Lemma final_validation_Ok df df' :
  final_validation df = Ok df' ↔
  df' = df ∧ "order_id" ∈ columns df ∧ "order_date" ∈ columns df.
Proof.
  unfold final_validation, getitem.
  destruct (has "order_id" df) eqn:Hid; destruct (has "order_date" df) eqn:Hdate;
    simpl; rewrite ?has_true, ?has_false in *; split;
    try discriminate; try (intros (_ & ? & ?); done).
  - by intros [= <-].
  - by intros (-> & _ & _).
Qed.

End steps.

(** Split a run of the pipeline into its steps, and name every
    intermediate table after the step that returns it. *)
Ltac name_step H d S t := rename H into S; try rename d into t.

Ltac pipeline H :=
  unfold clean_data, before_derived_columns, before_outlier_test in H;
  unfold handle_missing, standardize_types, handle_outliers, positive_amounts,
    standardize_categorical, derive_columns in H;
  repeat match goal with
         | H' : mbind _ _ = Ok _ |- _ => inv_bind H'
         end;
  try match goal with
      | H' : final_validation _ = Ok _ |- _ =>
          apply final_validation_Ok in H'; destruct H' as (-> & ? & ?)
      end;
  try match goal with H' : fill_customer_age _ = Ok ?d |- _ =>
        name_step H' d ident:(S_age) ident:(t_age) end;
  try match goal with H' : fill_product_category _ = Ok ?d |- _ =>
        name_step H' d ident:(S_category) ident:(t_category) end;
  try match goal with H' : drop_missing_critical _ = Ok ?d |- _ =>
        name_step H' d ident:(S_critical) ident:(t_critical) end;
  try match goal with H' : remove_duplicates _ = Ok ?d |- _ =>
        name_step H' d ident:(S_unique) ident:(t_unique) end;
  try match goal with H' : clean_order_date _ = Ok ?d |- _ =>
        name_step H' d ident:(S_date) ident:(t_date) end;
  try match goal with H' : clean_customer_email _ = Ok ?d |- _ =>
        name_step H' d ident:(S_email) ident:(t_email) end;
  try match goal with H' : clean_customer_phone _ = Ok ?d |- _ =>
        name_step H' d ident:(S_phone) ident:(t_phone) end;
  try match goal with H' : positive "quantity" _ = Ok ?d |- _ =>
        name_step H' d ident:(S_quantity) ident:(t_quantity) end;
  try match goal with H' : positive "unit_price" _ = Ok ?d |- _ =>
        name_step H' d ident:(S_price) ident:(t_price) end;
  try match goal with H' : positive "total_amount" _ = Ok ?d |- _ =>
        name_step H' d ident:(S_amount) ident:(t_amount) end;
  try match goal with H' : remove_extreme_outliers _ = Ok ?d |- _ =>
        name_step H' d ident:(S_outlier) ident:(t_outlier) end;
  try match goal with H' : title_case "product_category" _ = Ok ?d |- _ =>
        name_step H' d ident:(S_titled) ident:(t_titled) end;
  try match goal with H' : standardize_customer_gender _ = Ok ?d |- _ =>
        name_step H' d ident:(S_gender) ident:(t_gender) end;
  try match goal with H' : title_case "payment_method" _ = Ok ?d |- _ =>
        name_step H' d ident:(S_payment) ident:(t_payment) end;
  try match goal with H' : date_components _ = Ok ?d |- _ =>
        name_step H' d ident:(S_components) ident:(t_components) end;
  try match goal with H' : age_groups _ = Ok ?d |- _ =>
        name_step H' d ident:(S_groups) ident:(t_groups) end;
  try match goal with H' : revenue_per_item _ = Ok ?d |- _ =>
        name_step H' d ident:(S_revenue) ident:(t_revenue) end.

(** One step of the pipeline, taken from the context. *)
Ltac step :=
  match goal with
  | H : _ ?a = Ok _ |- evolves _ ?a _ =>
      first
        [ eapply fill_customer_age_evolves; exact H
        | eapply fill_product_category_evolves; exact H
        | eapply drop_missing_critical_evolves; exact H
        | eapply remove_duplicates_evolves; exact H
        | eapply clean_order_date_evolves; exact H
        | eapply clean_customer_email_evolves; exact H
        | eapply clean_customer_phone_evolves; exact H
        | eapply positive_evolves; exact H
        | eapply remove_extreme_outliers_evolves; exact H
        | eapply title_case_evolves; exact H
        | eapply standardize_customer_gender_evolves; exact H
        | eapply date_components_evolves; exact H
        | eapply age_groups_evolves; exact H
        | eapply revenue_per_item_evolves; exact H ]
  end.

(** [evolves W a b] along the steps found in the context. *)
Ltac evolve :=
  first
    [ apply evolves_refl
    | eapply evolves_step; [ step | compute_done | evolve ] ].

Section invariants.
Context `{Pandas}.

Lemma clean_data_evolves df out :
  clean_data df = Ok out → evolves rewritten_columns df out.
Proof. intros Hrun. pipeline Hrun. evolve. Qed.

Lemma evolves_Forall W (P : Row → Prop) a b :
  (∀ o i, same_outside W o i → P i → P o) →
  evolves W a b → Forall P (rows a) → Forall P (rows b).
Proof. intros HP [Hr _ _]. by eapply traces_Forall. Qed.

(** A property of one cell outlives every step that does not write the
    cell's column. *)
Lemma evolves_cell W c (Q : value → Prop) a b :
  c ∉ W → evolves W a b →
  Forall (λ r, Q (cell r c)) (rows a) → Forall (λ r, Q (cell r c)) (rows b).
Proof.
  intros Hc. apply evolves_Forall. intros o i Hoi.
  by rewrite (same_outside_cell _ _ _ _ Hoi Hc).
Qed.

Lemma traces_origin W out inp o :
  traces W out inp → o ∈ out → ∃ i, i ∈ inp ∧ same_outside W o i.
Proof.
  induction 1 as [ | o' i out inp Hoi _ IH | i out inp _ IH ].
  - by intros ?%elem_of_nil.
  - intros [-> | Hin]%elem_of_cons.
    + exists i. split; [ by left | done ].
    + destruct (IH Hin) as (i' & ? & ?). exists i'. split; [ by right | done ].
  - intros Hin. destruct (IH Hin) as (i' & ? & ?). exists i'.
    split; [ by right | done ].
Qed.

(** *** What each filtering step leaves *)

Lemma drop_missing_critical_complete df df' c :
  drop_missing_critical df = Ok df' →
  c ∈ critical_columns → c ∈ columns df →
  Forall (λ r, cell r c ≠ VNaN) (rows df').
Proof.
  intros [= <-] Hcrit Hc.
  eapply Forall_impl; [ apply dropna_complete | ]. simpl.
  intros r Hr. apply (proj1 (complete_spec _ _) Hr).
  apply list_elem_of_filter. split; [ | done ].
  apply Is_true_true. by apply has_true.
Qed.

Lemma zip_with_set_cell c (l : list Row) (vals : list value) r' :
  r' ∈ zip_with (λ r v, set_cell c v r) l vals →
  ∃ r v, r ∈ l ∧ v ∈ vals ∧ r' = set_cell c v r.
Proof.
  revert vals. induction l as [ | r l IH ]; intros [ | v vals ]; simpl;
    try by intros ?%elem_of_nil.
  intros [-> | Hin]%elem_of_cons.
  - exists r, v. repeat split; by left.
  - destruct (IH _ Hin) as (r0 & v0 & ? & ? & ->).
    exists r0, v0. repeat split; by right.
Qed.

Lemma clean_order_date_timestamps df df' :
  clean_order_date df = Ok df' → "order_date" ∈ columns df →
  Forall (λ r, is_timestamp (cell r "order_date") = true) (rows df').
Proof.
  unfold clean_order_date. intros Hdf Hc.
  rewrite (proj2 (has_true _ _) Hc) in Hdf. injection Hdf as <-.
  apply Forall_forall. intros r' [Hcomplete Hin]%list_elem_of_filter.
  apply zip_with_set_cell in Hin as (r & v & _ & Hv & ->).
  apply Is_true_true in Hcomplete.
  pose proof (proj1 (complete_spec _ _) Hcomplete "order_date") as Hna.
  rewrite cell_set_cell_eq in *.
  pose proof (to_datetime_cells (column "order_date" df)) as Hcells.
  destruct (proj1 (Forall_forall _ _) Hcells v Hv) as [-> | ?]; [ | done ].
  exfalso. apply Hna; [ set_solver | done ].
Qed.

Lemma clean_customer_email_matches df df' :
  clean_customer_email df = Ok df' → "customer_email" ∈ columns df →
  Forall (λ r, str_match email_pattern (cell r "customer_email") = true)
         (rows df').
Proof.
  unfold clean_customer_email. intros Hdf Hc.
  rewrite (proj2 (has_true _ _) Hc) in Hdf. injection Hdf as <-.
  apply select_holds.
Qed.

Lemma gt0_true v : gt0 v = Ok true ↔ is_positive v.
Proof.
  unfold is_positive. destruct v as [ | x | s | d ]; simpl; split;
    try discriminate; try (by intros (? & [=] & _)).
  - intros [= Hx%bool_decide_eq_true]. eauto.
  - intros (y & [= <-] & Hy). f_equal. by apply bool_decide_eq_true.
Qed.

Lemma positive_holds c df df' :
  positive c df = Ok df' → c ∈ columns df →
  Forall (λ r, is_positive (cell r c)) (rows df').
Proof.
  unfold positive. intros Hdf Hc.
  rewrite (proj2 (has_true _ _) Hc) in Hdf.
  eapply Forall_impl; [ by eapply where_holds | ].
  intros r. apply gt0_true.
Qed.

(** *** The first row of each [order_id] *)

Lemma complete_same_outside W cols a b :
  same_outside W a b → (∀ c, c ∈ cols → c ∉ W) →
  complete cols a = complete cols b.
Proof.
  intros Hab Hcols. unfold complete.
  induction cols as [ | c cols IH ]; simpl; [ done | ].
  rewrite (same_outside_cell _ _ _ c Hab) by (apply Hcols; by left).
  f_equal. apply IH. intros c' Hc'. apply Hcols. by right.
Qed.

Lemma filter_fmap_split (P : Row → Prop) `{∀ r, Decision (P r)}
    (g : Row → Row) l pre0 r post0 :
  filter P (g <$> l) = pre0 ++ r :: post0 →
  ∃ pre i post,
    l = pre ++ i :: post ∧ g i = r ∧ P r ∧ filter P (g <$> pre) = pre0.
Proof.
  revert pre0. induction l as [ | x l IH ]; intros pre0; simpl.
  - by destruct pre0.
  - rewrite filter_cons. destruct (decide (P (g x))) as [Hx | Hx].
    + destruct pre0 as [ | y pre0 ]; simpl.
      * intros [= <- _]. by exists [], x, l.
      * intros [= <- Hrest]. destruct (IH _ Hrest) as (pre & i & post & -> & ? & ? & ?).
        exists (x :: pre), i, post. simpl. rewrite filter_cons, decide_True by done.
        repeat split; try done. by f_equal.
    + intros Hrest. destruct (IH _ Hrest) as (pre & i & post & -> & ? & ? & ?).
      exists (x :: pre), i, post. simpl. rewrite filter_cons, decide_False by done.
      done.
Qed.

(** The two [fillna] steps rewrite every row where it stands. *)
Lemma fills_pointwise df df1 df2 :
  fill_customer_age df = Ok df1 → fill_product_category df1 = Ok df2 →
  columns df2 = columns df ∧
  ∃ g, rows df2 = g <$> rows df ∧
       ∀ r, same_outside ["customer_age"; "product_category"] (g r) r.
Proof.
  unfold fill_customer_age, fill_product_category. intros H1 H2.
  assert (columns df1 = columns df ∧
          ∃ g, rows df1 = g <$> rows df ∧
               ∀ r, same_outside ["customer_age"; "product_category"] (g r) r)
    as (Hc1 & g1 & Hr1 & Hg1).
  { destruct (has "customer_age" df).
    - inv_bind H1. injection H1 as <-. split; [ done | ]. eexists. split; [ done | ].
      intros r. simpl. destruct (isna _); auto with frame.
      apply same_outside_set_cell. set_solver.
    - injection H1 as <-. split; [ done | ]. exists id. split; [ by rewrite list_fmap_id | ].
      auto with frame. }
  destruct (has "product_category" df1); injection H2 as <-; simpl.
  - split; [ done | ]. eexists. split; [ by rewrite Hr1, <- list_fmap_compose | ].
    intros r. simpl. eapply same_outside_trans; [ | apply Hg1 ].
    destruct (isna _); auto with frame. apply same_outside_set_cell. set_solver.
  - split; [ done | ]. by exists g1.
Qed.

Lemma has_columns c df df' : columns df' = columns df → has c df' = has c df.
Proof. unfold has. by intros ->. Qed.

(** *** Stages *)

Lemma Ok_bind {A B} (a : A) (f : A → result B) : Ok a ≫= f = f a.
Proof. done. Qed.

Lemma bind_assoc {A B C} (m : result A) (f : A → result B) (g : B → result C) :
  (m ≫= f) ≫= g = m ≫= (λ a, f a ≫= g).
Proof. by destruct m. Qed.

Lemma clean_data_stages df :
  clean_data df =
  before_derived_columns df ≫= λ d, derive_columns d ≫= final_validation.
Proof.
  unfold clean_data, before_derived_columns, before_outlier_test,
    handle_outliers.
  destruct (handle_missing df) as [ d1 | ]; simpl; [ | done ].
  destruct (remove_duplicates d1) as [ d2 | ]; simpl; [ | done ].
  destruct (standardize_types d2) as [ d3 | ]; simpl; [ | done ].
  destruct (positive_amounts d3) as [ d4 | ]; simpl; [ | done ].
  destruct (remove_extreme_outliers d4) as [ d5 | ]; simpl; [ | done ].
  by destruct (standardize_categorical d5).
Qed.

Lemma before_derived_columns_stages df :
  before_derived_columns df =
  before_outlier_test df ≫= λ d,
    remove_extreme_outliers d ≫= standardize_categorical.
Proof. done. Qed.

(** *** Arithmetic on [Qc] through [Q] *)

Lemma num_this z : this (num z) = inject_Z z.
Proof.
  unfold num. simpl. unfold inject_Z. rewrite Qred_identity; [ done | ].
  simpl. apply Z.gcd_1_r.
Qed.

Lemma positive_nonzero q : (num 0 < q)%Qc → q ≠ num 0.
Proof. intros Hq ->. by apply Qclt_not_eq in Hq. Qed.

Lemma truediv_positive a t q :
  a = VNum t → (num 0 < q)%Qc → truediv a (VNum q) = Ok (VNum (t / q)%Qc).
Proof.
  intros -> Hq. simpl.
  by rewrite bool_decide_eq_false_2 by by apply positive_nonzero.
Qed.

(** *** Assigned columns *)

Lemma assign_rows c f df df' :
  assign c f df = Ok df' →
  Forall (λ r', ∃ r v, r ∈ rows df ∧ f r = Ok v ∧ r' = set_cell c v r)
         (rows df').
Proof.
  unfold assign. intros Hdf. inv_bind Hdf. injection Hdf as <-. simpl.
  apply each_Ok in Hstep.
  induction Hstep as [ | r v l vals Hv _ IH ]; simpl; [ done | ].
  constructor.
  - exists r, v. split; [ by left | done ].
  - eapply Forall_impl; [ exact IH | ]. simpl.
    intros r' (r0 & v0 & ? & ? & ?). exists r0, v0. split; [ by right | done ].
Qed.

Lemma age_groups_cut df df' :
  age_groups df = Ok df' → "customer_age" ∈ columns df →
  Forall (λ r, cut (cell r "customer_age") = Ok (cell r "age_group")) (rows df').
Proof.
  unfold age_groups. intros Hdf Hc.
  rewrite (proj2 (has_true _ _) Hc) in Hdf.
  eapply Forall_impl; [ by eapply assign_rows | ]. simpl.
  intros r' (r & v & _ & Hv & ->).
  by rewrite cell_set_cell_eq, cell_set_cell_ne.
Qed.

(** *** The outlier test *)

Lemma remove_extreme_outliers_within df df' :
  remove_extreme_outliers df = Ok df' → "total_amount" ∈ columns df →
  ∃ xs, numbers (column "total_amount" df) = Ok xs ∧
        Forall (λ r, within_3_std (mean xs) (variance xs)
                       (cell r "total_amount") = Ok true) (rows df').
Proof.
  unfold remove_extreme_outliers. intros Hdf Hc.
  rewrite (proj2 (has_true _ _) Hc) in Hdf. inv_bind Hdf.
  eexists. split; [ done | ]. by eapply where_holds.
Qed.

Lemma within_3_std_true m v a :
  within_3_std m v a = Ok true ↔
  ∃ x m' v', a = VNum x ∧ m = Some m' ∧ v = Some v' ∧
             ((x - m') * (x - m') ≤ num 9 * v')%Qc.
Proof.
  destruct a as [ | x | s | d ]; simpl; split;
    try discriminate; try (by intros (? & ? & ? & [=] & _)).
  - destruct m as [ m' | ], v as [ v' | ]; try discriminate.
    intros [= Hle%bool_decide_eq_true]. by exists x, m', v'.
  - intros (x' & m' & v' & [= <-] & -> & -> & Hle).
    f_equal. by apply bool_decide_eq_true.
Qed.

(** ** A second pass

    What the first pass leaves in the columns it writes, and why a second
    pass writes the same again. *)

(** *** Text *)



Lemma title_from_empty b s : title_from b s = "" → s = "".
Proof. destruct s as [ | c s ]; simpl; [ done | ]. by destruct (is_alpha c). Qed.















(** *** Numbers *)

Lemma numbers_Ok vs xs :
  numbers vs = Ok xs ↔
  Forall is_number_or_missing vs ∧ xs = omap number_of vs.
Proof.
  unfold numbers. rewrite bind_Ok. split.
  - intros (os & Hos%each_Ok & [= <-]).
    induction Hos as [ | v o vs os Hv _ [IH1 IH2] ]; [ done | ].
    destruct v as [ | x | s | d ]; simpl in Hv; try discriminate;
      injection Hv as <-; csimpl.
    + split; [ constructor; [ by left | done ] | done ].
    + split; [ constructor; [ right; eauto | done ] | by f_equal ].
  - intros [Hvs ->]. exists (number_of <$> vs). split.
    + apply each_pure. eapply Forall_impl; [ exact Hvs | ].
      by intros v [ -> | [x ->] ].
    + f_equal. clear Hvs. induction vs as [ | v vs IH ]; [ done | ].
      csimpl. destruct (number_of v); csimpl; by rewrite IH.
Qed.


(** *** Steps that change nothing *)










(** *** Column indexes *)

Lemma where_columns_eq p df df' : where_ p df = Ok df' → columns df' = columns df.
Proof. apply where_columns. Qed.

Lemma transform_columns c f df :
  c ∈ columns df → columns (transform c f df) = columns df.
Proof. intros. simpl. by apply add_column_present. Qed.

(** The steps before the derived columns keep the column index. *)
Lemma before_derived_columns_columns df d :
  before_derived_columns df = Ok d → columns d = columns df.
Proof.
  intros Hrun. pipeline Hrun.
  assert (columns t_age = columns df) as <-.
  { unfold fill_customer_age in S_age. destruct (has _ df).
    - inv_bind S_age. by injection S_age as <-.
    - by injection S_age as <-. }
  assert (columns t_category = columns t_age) as <-.
  { unfold fill_product_category in S_category.
    by destruct (has _ t_age); injection S_category as <-. }
  assert (columns t_critical = columns t_category) as <-
    by by injection S_critical as <-.
  assert (columns t_unique = columns t_critical) as <-.
  { unfold remove_duplicates, drop_duplicates in S_unique.
    destruct (is_empty _); [ by injection S_unique as <- | ].
    destruct (has _ _); [ by injection S_unique as <- | done ]. }
  assert (columns t_date = columns t_unique) as <-.
  { unfold clean_order_date in S_date.
    destruct (has _ t_unique) eqn:Hhas; injection S_date as <-; [ | done ].
    simpl. by apply add_column_present, has_true. }
  assert (columns t_email = columns t_date) as <-.
  { unfold clean_customer_email in S_email.
    by destruct (has _ t_date); injection S_email as <-. }
  assert (columns t_phone = columns t_email) as <-.
  { unfold clean_customer_phone in S_phone.
    destruct (has _ t_email) eqn:Hhas; injection S_phone as <-; [ | done ].
    by apply transform_columns, has_true. }
  assert (∀ c a b, positive c a = Ok b → columns b = columns a) as Hpositive.
  { intros c a b. unfold positive. destruct (has c a).
    - apply where_columns.
    - by intros [= <-]. }
  rewrite <- (Hpositive _ _ _ S_quantity), <- (Hpositive _ _ _ S_price),
    <- (Hpositive _ _ _ S_amount).
  assert (columns t_outlier = columns t_amount) as <-.
  { unfold remove_extreme_outliers in S_outlier. destruct (has _ t_amount).
    - inv_bind S_outlier. by eapply where_columns.
    - by injection S_outlier as <-. }
  assert (∀ c a b, title_case c a = Ok b → columns b = columns a) as Htitle.
  { intros c a b. unfold title_case. destruct (has c a) eqn:Hhas; intros [= <-];
      [ | done ]. by apply transform_columns, has_true. }
  rewrite <- (Htitle _ _ _ S_titled).
  assert (columns t_gender = columns t_titled) as <-.
  { unfold standardize_customer_gender in S_gender.
    destruct (has _ t_titled) eqn:Hhas; injection S_gender as <-; [ | done ].
    by apply transform_columns, has_true. }
  by rewrite <- (Htitle _ _ _ S_payment).
Qed.

(** *** What the rewriting steps store *)

Lemma stored_cell c Q r : stored c Q r → Q (cell r c).
Proof. intros (v & Hv & HQ). unfold cell. by rewrite Hv. Qed.

Lemma stored_same_outside W c Q o i :
  c ∉ W → same_outside W o i → stored c Q i → stored c Q o.
Proof. intros Hc [_ Hoi] (v & Hv & HQ). exists v. by rewrite Hoi. Qed.

Lemma evolves_stored W c Q a b :
  c ∉ W → evolves W a b →
  Forall (stored c Q) (rows a) → Forall (stored c Q) (rows b).
Proof. intros Hc. apply evolves_Forall. intros o i. by apply stored_same_outside. Qed.

Lemma transform_rows c f df :
  rows (transform c f df) = (λ r, set_cell c (f r) r) <$> rows df.
Proof. unfold transform. simpl. by rewrite zip_with_fmap_r, zip_with_diag. Qed.







Lemma clean_order_date_stored df df' :
  clean_order_date df = Ok df' → "order_date" ∈ columns df →
  Forall (stored "order_date" (λ v, is_timestamp v = true)) (rows df').
Proof.
  unfold clean_order_date. intros Hdf Hc.
  rewrite (proj2 (has_true _ _) Hc) in Hdf. injection Hdf as <-.
  apply Forall_forall. intros r' [Hcomplete Hin]%list_elem_of_filter.
  apply zip_with_set_cell in Hin as (r & v & _ & Hv & ->).
  apply Is_true_true in Hcomplete.
  pose proof (proj1 (complete_spec _ _) Hcomplete "order_date") as Hna.
  rewrite cell_set_cell_eq in Hna.
  exists v. split; [ apply lookup_insert_eq | ].
  pose proof (to_datetime_cells (column "order_date" df)) as Hcells.
  destruct (proj1 (Forall_forall _ _) Hcells v Hv) as [-> | ?]; [ | done ].
  exfalso. apply Hna; [ set_solver | done ].
Qed.


(** *** A settled table

    What a table must satisfy for every step of [clean_data] to return
    it as it is.  The outlier test is left out: it is the hypothesis
    [within_own_bound] of the theorem. *)


















(** *** The first pass settles the table *)


Lemma add_column_elem c cols : c ∈ add_column c cols.
Proof. unfold add_column. case_bool_decide; set_solver. Qed.




Lemma date_components_stored_after df df' :
  date_components df = Ok df' → "order_date" ∈ columns df →
  date_component_columns ⊆ columns df' ∧
  Forall date_components_stored (rows df').
Proof.
  unfold date_components. intros Hdf Hc.
  rewrite (proj2 (has_true _ _) Hc) in Hdf. injection Hdf as <-. split.
  - intros c Hin. unfold date_component_columns in Hin. simpl.
    repeat (apply elem_of_cons in Hin as [-> | Hin]);
      [ do 4 apply add_column_subseteq | do 3 apply add_column_subseteq
      | do 2 apply add_column_subseteq | apply add_column_subseteq | |
        by apply elem_of_nil in Hin ];
      apply add_column_elem.
  - rewrite !transform_rows, <- !list_fmap_compose.
    apply Forall_fmap, Forall_true. intros r.
    unfold date_components_stored, compose, cell, set_cell. simpl.
    by simplify_map_eq.
Qed.

End invariants.

(** ** Properties of the cleaned table *)

Section cleaned.
Context `{Pandas}.

(** C10.  [clean_data] never reorders rows: the rows of the output come,
    in order, from rows of the input; each keeps its index label and
    its entries in every column that the pipeline does not write, so the
    index labels of the output are a subsequence of those of the input. *)
Theorem clean_data_keeps_row_order df out :
  clean_data df = Ok out →
  traces rewritten_columns (rows out) (rows df) ∧
  label <$> rows out `sublist_of` label <$> rows df.
Proof.
  intros Hrun. apply clean_data_evolves in Hrun as [Hrows _ _].
  split; [ done | ].
  eapply traces_fmap_sublist; [ | done ]. by intros o i [Hl _].
Qed.

(** The critical columns are complete. *)
Lemma complete_after df out c :
  clean_data df = Ok out →
  c ∈ critical_columns → c ∈ columns df →
  Forall (λ r, cell r c ≠ VNaN) (rows out).
Proof.
  intros Hrun Hcrit Hc. pipeline Hrun.
  destruct (decide (c = "order_date")) as [-> | Hne].
  - assert (evolves ["customer_age"; "product_category"] df t_unique) as [_ Hcols _]
      by evolve.
    assert (Forall (λ r, is_timestamp (cell r "order_date") = true) (rows t_date))
      as Hdate by (eapply clean_order_date_timestamps; [ done | by apply Hcols ]).
    assert (evolves
              ["customer_phone"; "product_category"; "customer_gender";
               "payment_method"; "order_year"; "order_month"; "order_day";
               "order_weekday"; "order_quarter"; "age_group";
               "revenue_per_item"] t_date t_revenue) as Hlate by evolve.
    eapply Forall_impl;
      [ eapply (evolves_cell _ "order_date"
                  (λ v, is_timestamp v = true) _ _ _ Hlate Hdate) | ].
    simpl. intros r Hr Hna. by rewrite Hna in Hr.
  - assert (evolves ["customer_age"; "product_category"] df t_category) as [_ Hcols _]
      by evolve.
    assert (Forall (λ r, cell r c ≠ VNaN) (rows t_critical)) as Hcomplete
      by (eapply drop_missing_critical_complete; [ done .. | by apply Hcols ]).
    assert (evolves
              ["order_date"; "customer_phone"; "product_category";
               "customer_gender"; "payment_method"; "order_year";
               "order_month"; "order_day"; "order_weekday"; "order_quarter";
               "age_group"; "revenue_per_item"] t_critical t_revenue) as Hlate by evolve.
    refine (evolves_cell _ c (λ v, v ≠ VNaN) _ _ _ Hlate Hcomplete).
    unfold critical_columns in Hcrit. set_solver.
  Unshelve. set_solver.
Qed.

(** C6.  Every row of the output has a value in each of [order_id],
    [customer_id], [order_date] and [total_amount] that is a column of the
    input. *)
Theorem critical_columns_complete df out c :
  clean_data df = Ok out →
  c ∈ critical_columns → c ∈ columns df →
  Forall (λ r, cell r c ≠ VNaN) (rows out).
Proof. apply complete_after. Qed.

(** The amounts are positive. *)
Lemma positive_after df out c :
  clean_data df = Ok out →
  c ∈ ["quantity"; "unit_price"; "total_amount"] → c ∈ columns df →
  Forall (λ r, is_positive (cell r c)) (rows out).
Proof.
  intros Hrun Hin Hc. pipeline Hrun.
  assert (evolves ["customer_age"; "product_category"; "order_date";
                   "customer_phone"] df t_phone) as [_ Hcols2 _] by evolve.
  assert (evolves [] t_phone t_quantity) as [_ Hcols11 _] by evolve.
  assert (evolves [] t_quantity t_price) as [_ Hcols12 _] by evolve.
  assert (∃ d, Forall (λ r, is_positive (cell r c)) (rows d) ∧
               evolves ["product_category"; "customer_gender";
                        "payment_method"; "order_year"; "order_month";
                        "order_day"; "order_weekday"; "order_quarter";
                        "age_group"; "revenue_per_item"] d t_revenue)
    as (d & Hd & Hlate).
  { repeat (apply elem_of_cons in Hin as [-> | Hin]);
      [ exists t_quantity | exists t_price | exists t_amount | by apply elem_of_nil in Hin ];
      (split; [ eapply positive_holds; [ done | auto ] | evolve ]). }
  refine (evolves_cell _ c is_positive _ _ _ Hlate Hd).
  set_solver.
Qed.

(** C7.  Every row of the output has a number greater than zero in each
    of [quantity], [unit_price] and [total_amount] that is a column of the
    input. *)
Theorem amounts_positive df out c :
  clean_data df = Ok out →
  c ∈ ["quantity"; "unit_price"; "total_amount"] → c ∈ columns df →
  Forall (λ r, ∃ x, cell r c = VNum x ∧ (num 0 < x)%Qc) (rows out).
Proof. apply positive_after. Qed.

(** The addresses that are left match the pattern. *)
Lemma emails_after df out :
  clean_data df = Ok out → "customer_email" ∈ columns df →
  Forall (λ r, str_match email_pattern (cell r "customer_email") = true)
         (rows out).
Proof.
  intros Hrun Hc. pipeline Hrun.
  assert (evolves ["customer_age"; "product_category"; "order_date"] df t_date)
    as [_ Hcols _] by evolve.
  pose proof (clean_customer_email_matches _ _ S_email (Hcols _ Hc)) as Hmatch.
  assert (evolves
            ["customer_phone"; "product_category"; "customer_gender";
             "payment_method"; "order_year"; "order_month"; "order_day";
             "order_weekday"; "order_quarter"; "age_group";
             "revenue_per_item"] t_email t_revenue) as Hlate by evolve.
  refine (evolves_cell _ "customer_email"
            (λ v, str_match email_pattern v = true) _ _ _ Hlate Hmatch).
  compute_done.
Qed.

(** C5.  With a [customer_email] column in the input, every row of the
    output comes from an input row whose [customer_email] is a string
    that matches the pattern, and carries that string; rows with a
    missing or malformed address leave no row in the output. *)
Theorem invalid_emails_excluded df out o :
  clean_data df = Ok out → "customer_email" ∈ columns df →
  o ∈ rows out →
  ∃ i s, i ∈ rows df ∧ label o = label i ∧
         cell i "customer_email" = VStr s ∧
         cell o "customer_email" = VStr s ∧
         re_match email_pattern s = true.
Proof.
  intros Hrun Hc Ho.
  pose proof (clean_data_evolves _ _ Hrun) as [Hrows _ _].
  destruct (traces_origin _ _ _ _ Hrows Ho) as (i & Hi & Hoi).
  assert (cell o "customer_email" = cell i "customer_email") as Heq
    by (apply (same_outside_cell _ _ _ _ Hoi); compute_done).
  pose proof (proj1 (Forall_forall _ _) (emails_after _ _ Hrun Hc) o Ho) as Hm.
  simpl in Hm.
  destruct (cell o "customer_email") as [ | x | s | d ] eqn:Hs; try discriminate.
  destruct Hoi as [Hlabel _]. exists i, s. by rewrite <- Heq.
Qed.

(** No [order_id] occurs twice. *)
Lemma unique_after df out :
  clean_data df = Ok out → "order_id" ∈ columns df →
  NoDup (column "order_id" out).
Proof.
  intros Hrun Hc. pipeline Hrun.
  assert (evolves ["customer_age"; "product_category"] df t_critical)
    as [_ Hcols _] by evolve.
  destruct (drop_duplicates_rows _ _ _ (Hcols _ Hc) S_unique) as [_ Hkept].
  assert (evolves
            ["order_date"; "customer_phone"; "product_category";
             "customer_gender"; "payment_method"; "order_year";
             "order_month"; "order_day"; "order_weekday"; "order_quarter";
             "age_group"; "revenue_per_item"] t_unique t_revenue)
    as [Hlate _ _] by evolve.
  assert (column "order_id" t_revenue `sublist_of` column "order_id" t_unique)
    as Hsub.
  { apply (traces_fmap_sublist _ (λ r, cell r "order_id") _ _) with (2 := Hlate).
    intros o i Hoi. apply (same_outside_cell _ _ _ _ Hoi). compute_done. }
  apply (sublist_NoDup _ (column "order_id" t_unique)); [ | done ].
  unfold column. rewrite Hkept. apply keep_first_NoDup.
Qed.

(** C3, as the code has it.  With an [order_id] column in the input, no
    two rows of the output share an [order_id], and every row of the
    output comes from the first input row with its [order_id] among the
    input rows that miss no critical value (rows with a missing critical
    value are dropped before duplicates are looked for). *)
Theorem order_ids_unique df out :
  clean_data df = Ok out → "order_id" ∈ columns df →
  NoDup (column "order_id" out) ∧
  Forall (retained_first "order_id" (rows df) (complete_in df)) (rows out).
Proof.
  intros Hrun Hc. pose proof (unique_after _ _ Hrun Hc) as Hunique.
  pipeline Hrun.
  destruct (fills_pointwise _ _ _ S_age S_category) as (Hcols & g & Hrows & Hg).
  injection S_critical as <-.
  assert ("order_id" ∈
            columns (dropna (filter (λ c, has c t_category) critical_columns) t_category))
    as Hc0 by (simpl; by rewrite Hcols).
  destruct (drop_duplicates_rows _ _ _ Hc0 S_unique) as [_ Hkept].
  assert (evolves
            ["order_date"; "customer_phone"; "product_category";
             "customer_gender"; "payment_method"; "order_year";
             "order_month"; "order_day"; "order_weekday"; "order_quarter";
             "age_group"; "revenue_per_item"] t_unique t_revenue) as [Hlate _ _] by evolve.
  assert ("order_id" ∉
            ["order_date"; "customer_phone"; "product_category";
             "customer_gender"; "payment_method"; "order_year";
             "order_month"; "order_day"; "order_weekday"; "order_quarter";
             "age_group"; "revenue_per_item"]) as Hnot by compute_done.
  split; [ done | ]. apply Forall_forall. intros o Ho.
    destruct (traces_origin _ _ _ _ Hlate Ho) as (r1 & Hr1 & Ho1).
    rewrite Hkept in Hr1.
    destruct (keep_first_first _ _ _ _ Hr1) as (pre0 & post0 & Hsplit & Hpre0).
    simpl in Hsplit. rewrite Hrows in Hsplit.
    apply filter_fmap_split in Hsplit as (pre & i & post & Hl & Hgi & Hcomp & Hpre).
    assert (∀ r, complete (filter (λ c, has c t_category) critical_columns) (g r)
                 = complete (filter (λ c, has c df) critical_columns) r) as Hsame.
    { intros r. rewrite (list_filter_iff _ (λ c, has c df)).
      - apply (complete_same_outside _ _ _ _ (Hg r)).
        intros c [_ Hin]%list_elem_of_filter. unfold critical_columns in Hin.
        set_solver.
      - intros c. by rewrite (has_columns c _ _ Hcols). }
    exists pre, i, post. subst r1.
    destruct Ho1 as [Hlabel Hcells]. destruct (Hg i) as [Hlabel' _].
    assert ("order_id" ∉ ["customer_age"; "product_category"]) as Hnot'
      by compute_done.
    repeat split.
    + done.
    + congruence.
    + unfold cell. rewrite Hcells by done.
      apply (same_outside_cell _ _ _ "order_id" (Hg i) Hnot').
    + unfold complete_in. rewrite <- Hsame. by apply Is_true_true.
    + apply Forall_forall. intros x Hx Hcx.
      rewrite <- (same_outside_cell _ _ _ "order_id" (Hg x) Hnot').
      rewrite <- (same_outside_cell _ _ _ "order_id" (Hg i) Hnot').
      apply (proj1 (Forall_forall _ _) Hpre0). rewrite <- Hpre.
      apply list_elem_of_filter. split.
      * apply Is_true_true. rewrite Hsame. exact Hcx.
      * by apply list_elem_of_fmap_2.
Qed.

(** C9.  With [total_amount] and [quantity] columns in the input, every
    row that reaches the derived-column stage has a [quantity] greater
    than zero, so [total_amount / quantity] divides by a number that is
    not zero. *)
Theorem division_by_positive_quantity df out :
  clean_data df = Ok out →
  "total_amount" ∈ columns df → "quantity" ∈ columns df →
  ∃ d, before_derived_columns df = Ok d ∧
       derive_columns d ≫= final_validation = Ok out ∧
       Forall (λ r, ∃ t q,
                 cell r "total_amount" = VNum t ∧
                 cell r "quantity" = VNum q ∧ (num 0 < q)%Qc ∧
                 truediv (cell r "total_amount") (cell r "quantity")
                 = Ok (VNum (t / q)%Qc)) (rows d).
Proof.
  intros Hrun Ht Hq. rewrite clean_data_stages in Hrun.
  apply bind_Ok in Hrun as (d & Hd & Hrest). exists d. repeat split; [ done .. | ].
  clear Hrest. pipeline Hd.
  assert (evolves ["customer_age"; "product_category"; "order_date";
                   "customer_phone"] df t_phone) as [_ Hcols _] by evolve.
  assert (evolves [] t_phone t_price) as [_ Hcols' _] by evolve.
  pose proof (positive_holds _ _ _ S_quantity (Hcols _ Hq)) as Hquantity.
  pose proof (positive_holds _ _ _ S_amount (Hcols' _ (Hcols _ Ht))) as Hamount.
  assert (evolves ["product_category"; "customer_gender"; "payment_method"]
            t_quantity t_payment) as Hlate by evolve.
  assert (evolves ["product_category"; "customer_gender"; "payment_method"]
            t_amount t_payment) as Hlate' by evolve.
  assert ("quantity" ∉ ["product_category"; "customer_gender"; "payment_method"])
    as Hnq by compute_done.
  assert ("total_amount" ∉ ["product_category"; "customer_gender";
                            "payment_method"]) as Hnt by compute_done.
  pose proof (evolves_cell _ _ is_positive _ _ Hnq Hlate Hquantity) as Hq'.
  pose proof (evolves_cell _ _ is_positive _ _ Hnt Hlate' Hamount) as Ht'.
  apply Forall_forall. intros r Hr.
  destruct (proj1 (Forall_forall _ _) Hq' r Hr) as (q & Hrq & Hpos).
  destruct (proj1 (Forall_forall _ _) Ht' r Hr) as (t & Hrt & _).
  exists t, q. rewrite Hrq. repeat split; try done.
  by apply truediv_positive.
Qed.

Lemma cut_age_group_of v g : cut v = Ok g → age_group_of v g.
Proof.
  destruct v as [ | x | s | d ]; simpl; try discriminate.
  - by intros [= <-].
  - intros [= <-]. unfold age_bins, age_labels. simpl.
    repeat case_bool_decide; simpl; repeat split; intros; try done;
      exfalso; unfold Qclt, Qcle in *; rewrite ?num_this in *;
      unfold inject_Z in *; lra.
Qed.

(** C8, as the code has it.  With a [customer_age] column in the input,
    every row of the output has in [age_group] the label of the bin of
    its [customer_age] among (0,25], (25,35], (35,50], (50,65] and
    (65,100], labelled "18-25", "26-35", "36-50", "51-65" and "65+"; a
    [customer_age] that is missing, is at most 0 or is above 100 has a
    missing [age_group]. *)
Theorem age_group_bins df out :
  clean_data df = Ok out → "customer_age" ∈ columns df →
  Forall (λ r, age_group_of (cell r "customer_age") (cell r "age_group"))
         (rows out).
Proof.
  intros Hrun Hc. pipeline Hrun.
  assert (evolves rewritten_columns df t_components) as [_ Hcols _] by evolve.
  pose proof (age_groups_cut _ _ S_groups (Hcols _ Hc)) as Hcut.
  assert (evolves ["revenue_per_item"] t_groups t_revenue) as Hlate by evolve.
  eapply Forall_impl.
  - refine (evolves_Forall _
              (λ r, cut (cell r "customer_age") = Ok (cell r "age_group"))
              _ _ _ Hlate Hcut).
    intros o i Hoi.
    rewrite (same_outside_cell _ _ _ "customer_age" Hoi) by compute_done.
    by rewrite (same_outside_cell _ _ _ "age_group" Hoi) by compute_done.
  - intros r. apply cut_age_group_of.
Qed.

(** C4, as the code has it.  With a [total_amount] column in the input,
    every row of the output has its [total_amount] within three standard
    deviations of the mean, where mean and standard deviation are those
    of the table as the outlier test finds it (after the earlier filters,
    before its own). *)
Theorem amounts_within_three_deviations df out :
  clean_data df = Ok out → "total_amount" ∈ columns df →
  ∃ before xs,
    before_outlier_test df = Ok before ∧
    numbers (column "total_amount" before) = Ok xs ∧
    Forall (λ r, ∃ x m v,
              cell r "total_amount" = VNum x ∧
              mean xs = Some m ∧ variance xs = Some v ∧
              ((x - m) * (x - m) ≤ num 9 * v)%Qc) (rows out).
Proof.
  intros Hrun Hc. rewrite clean_data_stages, before_derived_columns_stages in Hrun.
  rewrite bind_assoc in Hrun.
  apply bind_Ok in Hrun as (before & Hbefore & Hrun). exists before.
  assert (evolves rewritten_columns df before) as [_ Hcols _].
  { clear Hrun. pipeline Hbefore. evolve. }
  cut (∃ xs, numbers (column "total_amount" before) = Ok xs ∧
             Forall (λ r, ∃ x m v,
                       cell r "total_amount" = VNum x ∧
                       mean xs = Some m ∧ variance xs = Some v ∧
                       ((x - m) * (x - m) ≤ num 9 * v)%Qc) (rows out)).
  { intros (xs & ? & ?). by exists xs. }
  clear Hbefore. pipeline Hrun.
  destruct (remove_extreme_outliers_within _ _ S_outlier (Hcols _ Hc))
    as (xs & Hxs & Hwithin).
  exists xs. split; [ done | ].
  assert (evolves
            ["product_category"; "customer_gender"; "payment_method";
             "order_year"; "order_month"; "order_day"; "order_weekday";
             "order_quarter"; "age_group"; "revenue_per_item"]
            t_outlier t_revenue) as Hlate by evolve.
  eapply Forall_impl.
  - refine (evolves_cell _ "total_amount"
              (λ v, within_3_std (mean xs) (variance xs) v = Ok true)
              _ _ _ Hlate Hwithin).
    compute_done.
  - intros r. apply within_3_std_true.
Qed.

(** A run that returns had [order_id] and [order_date] columns to start
    with. *)
Lemma clean_data_needs_columns df out :
  clean_data df = Ok out →
  "order_id" ∈ columns df ∧ "order_date" ∈ columns df.
Proof.
  intros Hrun. pose proof (clean_data_evolves _ _ Hrun) as [_ _ Hnew].
  pipeline Hrun. split.
  - destruct (Hnew "order_id") as [ ? | Hin ]; [ done .. | ].
    exfalso. revert Hin. compute_done.
  - assert (evolves
              ["customer_phone"; "product_category"; "customer_gender";
               "payment_method"; "order_year"; "order_month"; "order_day";
               "order_weekday"; "order_quarter"; "age_group";
               "revenue_per_item"] t_date t_revenue) as [_ _ Hlate] by evolve.
    assert ("order_date" ∈ columns t_date) as Hc13.
    { destruct (Hlate "order_date") as [ ? | Hin ]; [ done .. | ].
      exfalso. revert Hin. compute_done. }
    assert ("order_date" ∈ columns t_unique) as Hc1.
    { unfold clean_order_date in S_date.
      destruct (has "order_date" t_unique) eqn:Hhas; [ by apply has_true | ].
      by injection S_date as <-. }
    assert (evolves ["customer_age"; "product_category"] df t_unique) as [_ _ Hearly]
      by evolve.
    destruct (Hearly "order_date") as [ ? | Hin ]; [ done .. | ].
    exfalso. revert Hin. compute_done.
Qed.



End cleaned.

Lemma clean_data_sample : clean_data sample = Ok sample_cleaned.
Proof. vm_compute. reflexivity. Qed.

Lemma clean_data_keeps_row_order_witness :
  clean_data sample = Ok sample_cleaned ∧
  traces rewritten_columns (rows sample_cleaned) (rows sample) ∧
  label <$> rows sample_cleaned `sublist_of` label <$> rows sample.
Proof.
  split; [ exact clean_data_sample | ].
  apply (clean_data_keeps_row_order sample sample_cleaned).
  exact clean_data_sample.
Defined.

Lemma critical_columns_complete_witness :
  clean_data sample = Ok sample_cleaned ∧
  "order_date" ∈ critical_columns ∧ "order_date" ∈ columns sample ∧
  Forall (λ r, cell r "order_date" ≠ VNaN) (rows sample_cleaned).
Proof.
  split; [ exact clean_data_sample | ].
  split; [ compute_done | ]. split; [ compute_done | ].
  apply (critical_columns_complete sample sample_cleaned "order_date");
    [ exact clean_data_sample | compute_done | compute_done ].
Defined.

Lemma amounts_positive_witness :
  clean_data sample = Ok sample_cleaned ∧
  "quantity" ∈ ["quantity"; "unit_price"; "total_amount"] ∧
  "quantity" ∈ columns sample ∧
  Forall (λ r, ∃ x, cell r "quantity" = VNum x ∧ (num 0 < x)%Qc)
         (rows sample_cleaned).
Proof.
  split; [ exact clean_data_sample | ].
  split; [ compute_done | ]. split; [ compute_done | ].
  apply (amounts_positive sample sample_cleaned "quantity");
    [ exact clean_data_sample | compute_done | compute_done ].
Defined.

Lemma invalid_emails_excluded_witness :
  clean_data sample = Ok sample_cleaned ∧
  "customer_email" ∈ columns sample ∧
  (∀ o, o ∈ rows sample_cleaned →
        ∃ i s, i ∈ rows sample ∧ label o = label i ∧
               cell i "customer_email" = VStr s ∧
               cell o "customer_email" = VStr s ∧
               re_match email_pattern s = true).
Proof.
  split; [ exact clean_data_sample | ]. split; [ compute_done | ].
  intros o Ho.
  apply (invalid_emails_excluded sample sample_cleaned o);
    [ exact clean_data_sample | compute_done | exact Ho ].
Defined.

Lemma clean_data_same_order_twice :
  clean_data same_order_twice = Ok same_order_twice_cleaned.
Proof. vm_compute. reflexivity. Qed.

Lemma order_ids_unique_witness :
  clean_data same_order_twice = Ok same_order_twice_cleaned ∧
  "order_id" ∈ columns same_order_twice ∧
  NoDup (column "order_id" same_order_twice_cleaned) ∧
  Forall (retained_first "order_id" (rows same_order_twice)
            (complete_in same_order_twice))
         (rows same_order_twice_cleaned).
Proof.
  split; [ exact clean_data_same_order_twice | ]. split; [ compute_done | ].
  apply (order_ids_unique same_order_twice same_order_twice_cleaned);
    [ exact clean_data_same_order_twice | compute_done ].
Defined.

(** C3, as stated, fails: the row that is retained for an [order_id] need
    not come from the first input row with that [order_id].  Of the two
    rows of [same_order_twice] the second one is returned. *)
Lemma first_input_row_not_retained :
  clean_data same_order_twice = Ok same_order_twice_cleaned ∧
  (label <$> rows same_order_twice_cleaned) = [1%nat] ∧
  ¬ Forall (retained_first "order_id" (rows same_order_twice) (λ _, True))
           (rows same_order_twice_cleaned).
Proof.
  split; [ exact clean_data_same_order_twice | ]. split; [ reflexivity | ].
  intros Hall. apply Forall_cons in Hall as [(pre & i & post & Hsplit & Hlabel & _ & _ & Hpre) _].
  destruct pre as [ | x pre ].
  - injection Hsplit as <- _. discriminate Hlabel.
  - injection Hsplit as <- Hrest. apply Forall_cons in Hpre as [Hx _].
    destruct pre as [ | y pre ].
    + injection Hrest as <- _. by apply Hx.
    + injection Hrest as _ Hrest. by destruct pre.
Qed.

Lemma division_by_positive_quantity_witness :
  clean_data sample = Ok sample_cleaned ∧
  "total_amount" ∈ columns sample ∧ "quantity" ∈ columns sample ∧
  ∃ d, before_derived_columns sample = Ok d ∧
       derive_columns d ≫= final_validation = Ok sample_cleaned ∧
       Forall (λ r, ∃ t q,
                 cell r "total_amount" = VNum t ∧
                 cell r "quantity" = VNum q ∧ (num 0 < q)%Qc ∧
                 truediv (cell r "total_amount") (cell r "quantity")
                 = Ok (VNum (t / q)%Qc)) (rows d).
Proof.
  split; [ exact clean_data_sample | ].
  split; [ compute_done | ]. split; [ compute_done | ].
  apply (division_by_positive_quantity sample sample_cleaned);
    [ exact clean_data_sample | compute_done | compute_done ].
Defined.

Lemma clean_data_age_zero : clean_data age_zero = Ok age_zero_cleaned.
Proof. vm_compute. reflexivity. Qed.

Lemma age_group_bins_witness :
  clean_data age_zero = Ok age_zero_cleaned ∧
  "customer_age" ∈ columns age_zero ∧
  Forall (λ r, age_group_of (cell r "customer_age") (cell r "age_group"))
         (rows age_zero_cleaned).
Proof.
  split; [ exact clean_data_age_zero | ]. split; [ compute_done | ].
  apply (age_group_bins age_zero age_zero_cleaned);
    [ exact clean_data_age_zero | compute_done ].
Defined.

(** C8, as stated, fails: the age 0 lies in the stated first bin [0,25]
    and the code gives it no [age_group]. *)
Lemma age_zero_has_no_group :
  clean_data age_zero = Ok age_zero_cleaned ∧
  column "customer_age" age_zero_cleaned = [int 0] ∧
  column "age_group" age_zero_cleaned = [VNaN] ∧
  stated_age_group (num 0) = VStr "18-25" ∧
  ¬ Forall (λ r, ∃ x, cell r "customer_age" = VNum x ∧
                      cell r "age_group" = stated_age_group x)
           (rows age_zero_cleaned).
Proof.
  split; [ exact clean_data_age_zero | ].
  split; [ compute_done | ].
  split; [ reflexivity | ]. split; [ reflexivity | ].
  intros Hall. apply Forall_cons in Hall as [(x & Hx & Hg) _].
  vm_compute in Hx. injection Hx as <-. vm_compute in Hg. discriminate Hg.
Qed.

Lemma clean_data_spread : clean_data spread = Ok spread_cleaned.
Proof. vm_compute. reflexivity. Qed.

Lemma amounts_within_three_deviations_witness :
  clean_data spread = Ok spread_cleaned ∧
  "total_amount" ∈ columns spread ∧
  ∃ before xs,
    before_outlier_test spread = Ok before ∧
    numbers (column "total_amount" before) = Ok xs ∧
    Forall (λ r, ∃ x m v,
              cell r "total_amount" = VNum x ∧
              mean xs = Some m ∧ variance xs = Some v ∧
              ((x - m) * (x - m) ≤ num 9 * v)%Qc) (rows spread_cleaned).
Proof.
  split; [ exact clean_data_spread | ]. split; [ compute_done | ].
  apply (amounts_within_three_deviations spread spread_cleaned);
    [ exact clean_data_spread | compute_done ].
Defined.

(** C4, as stated, fails: of the thirteen amounts of [spread] the test
    removes 1000000; among the twelve that are returned, 100 is more than
    three standard deviations from their mean. *)
Lemma bound_fails_on_output :
  clean_data spread = Ok spread_cleaned ∧
  label <$> rows spread_cleaned = seq 0 12 ∧
  "total_amount" ∈ columns spread_cleaned ∧
  ¬ within_own_bound spread_cleaned.
Proof.
  split; [ exact clean_data_spread | ]. split; [ reflexivity | ].
  split; [ compute_done | ].
  intros Hbound. destruct Hbound as (xs & Hxs & Hall); [ compute_done | ].
  eapply (Forall_lookup_1 _ _ 11%nat) in Hall; [ | reflexivity ].
  apply within_3_std_true in Hall.
  vm_compute in Hxs. injection Hxs as <-.
  vm_compute in Hall. discriminate Hall.
Qed.

(** C1 fails on the code: on a table that has no [order_id] column
    [drop_duplicates] raises [KeyError], and on a table that has no
    [order_date] column the final report does. *)
Theorem missing_column_raises :
  clean_data no_order_id = Raise (KeyError "order_id") ∧
  clean_data no_order_date = Raise (KeyError "order_date").
Proof. split; vm_compute; reflexivity. Qed.






(** The other two hypotheses of the second-pass theorem are needed as
    well: a second pass over [spread_cleaned] removes the amount 100,
    and a second pass over a table whose [product_category] was a number
    writes "Unknown" where the first pass left a missing value. *)
Lemma second_pass_removes_outlier :
  label <$> rows (returned (clean_data spread_cleaned)) = seq 0 11.
Proof. reflexivity. Qed.

Lemma second_pass_fills_category :
  column "product_category" (returned (clean_data numbered_category)) = [VNaN] ∧
  column "product_category"
    (returned (clean_data (returned (clean_data numbered_category))))
  = [VStr "Unknown"].
Proof. split; reflexivity. Qed.

(** * More properties of [clean_data] *)

(** ** When [clean_data] returns *)

Section returns.
Context `{Pandas}.

Lemma each_returns {A B} (f : A → result B) l :
  Forall (λ a, ∃ b, f a = Ok b) l → ∃ bs, each f l = Ok bs.
Proof.
  induction 1 as [ | a l [b Hb] _ [bs IH] ]; simpl; [ by eexists | ].
  rewrite Hb, IH. by eexists.
Qed.

Lemma where_returns p df :
  Forall (λ r, ∃ b, p r = Ok b) (rows df) → ∃ df', where_ p df = Ok df'.
Proof.
  intros [mask Hmask]%each_returns. unfold where_. rewrite Hmask. by eexists.
Qed.

Lemma assign_returns c f df :
  Forall (λ r, ∃ v, f r = Ok v) (rows df) → ∃ df', assign c f df = Ok df'.
Proof.
  intros [vals Hvals]%each_returns. unfold assign. rewrite Hvals. by eexists.
Qed.

Lemma median_of_kind xs : is_number_or_missing (median_of xs).
Proof. unfold median_of. repeat case_match; (by left) || (right; eauto). Qed.

Lemma ready_evolves W d d' :
  Forall (λ c, c ∉ W) numeric_columns → evolves W d d' → ready d → ready d'.
Proof.
  intros HW Hev (Hid & Hdate & Htyped).
  split; [ by apply (ev_columns _ _ _ Hev) | ].
  split; [ by apply (ev_columns _ _ _ Hev) | ].
  intros c Hnum Hc.
  pose proof (proj1 (Forall_forall _ _) HW c Hnum) as Hnot.
  destruct (ev_new _ _ _ Hev c Hc) as [ Hc' | ? ]; [ | done ].
  exact (evolves_cell _ c is_number_or_missing _ _ Hnot Hev (Htyped c Hnum Hc')).
Qed.

(** A step that cannot raise and writes no numeric column. *)
Lemma pure_step_returns W (step : DataFrame → result DataFrame) d :
  (∃ d', step d = Ok d') →
  (∀ d', step d = Ok d' → evolves W d d') →
  Forall (λ c, c ∉ W) numeric_columns →
  ready d → ∃ d', step d = Ok d' ∧ ready d'.
Proof.
  intros [d' Hd'] Hev HW Hready. exists d'. split; [ done | ].
  eapply ready_evolves; eauto.
Qed.

Lemma fill_customer_age_returns d :
  ready d → ∃ d', fill_customer_age d = Ok d' ∧ ready d'.
Proof.
  intros (Hid & Hdate & Htyped). unfold fill_customer_age.
  destruct (has "customer_age" d) eqn:Hhas; [ | by eexists ].
  apply has_true in Hhas.
  assert (Forall is_number_or_missing (column "customer_age" d)) as Hcol.
  { apply Forall_fmap. apply (Htyped "customer_age"); [ compute_done | done ]. }
  unfold median. rewrite (proj2 (numbers_Ok _ _) (conj Hcol eq_refl)). simpl.
  eexists. split; [ done | ]. split; [ done | ]. split; [ done | ].
  intros c Hnum Hc. simpl in *. apply Forall_fmap.
  eapply Forall_impl; [ exact (Htyped c Hnum Hc) | ]. simpl. intros r Hr.
  destruct (isna (cell r "customer_age")) eqn:Hna; [ | done ].
  rewrite cell_set_cell. case_decide as Heq; [ apply median_of_kind | done ].
Qed.

Lemma gt0_returns v : is_number_or_missing v → ∃ b, gt0 v = Ok b.
Proof. intros [ -> | [x ->] ]; simpl; by eexists. Qed.

Lemma positive_returns c d :
  c ∈ numeric_columns → ready d → ∃ d', positive c d = Ok d' ∧ ready d'.
Proof.
  intros Hnum Hready.
  apply (pure_step_returns [] (positive c)); [ | | compute_done | done ].
  - unfold positive. destruct (has c d) eqn:Hhas; [ | by eexists ].
    apply where_returns. destruct Hready as (_ & _ & Htyped).
    eapply Forall_impl; [ exact (Htyped c Hnum (proj1 (has_true _ _) Hhas)) | ].
    intros r. apply gt0_returns.
  - apply positive_evolves.
Qed.

Lemma remove_extreme_outliers_returns d :
  ready d → ∃ d', remove_extreme_outliers d = Ok d' ∧ ready d'.
Proof.
  intros Hready.
  apply (pure_step_returns [] remove_extreme_outliers);
    [ | apply remove_extreme_outliers_evolves | compute_done | done ].
  unfold remove_extreme_outliers.
  destruct (has "total_amount" d) eqn:Hhas; [ | by eexists ].
  destruct Hready as (_ & _ & Htyped).
  pose proof (Htyped "total_amount" ltac:(compute_done)
                (proj1 (has_true _ _) Hhas)) as Hcells.
  assert (Forall is_number_or_missing (column "total_amount" d)) as Hcol
    by by apply Forall_fmap.
  rewrite (proj2 (numbers_Ok _ _) (conj Hcol eq_refl)). simpl.
  apply where_returns. eapply Forall_impl; [ exact Hcells | ].
  intros r [ -> | [x ->] ]; simpl; by eexists.
Qed.

Lemma age_groups_returns d : ready d → ∃ d', age_groups d = Ok d' ∧ ready d'.
Proof.
  intros Hready.
  apply (pure_step_returns ["age_group"] age_groups);
    [ | apply age_groups_evolves | compute_done | done ].
  unfold age_groups. destruct (has "customer_age" d) eqn:Hhas; [ | by eexists ].
  apply assign_returns. destruct Hready as (_ & _ & Htyped).
  eapply Forall_impl;
    [ exact (Htyped "customer_age" ltac:(compute_done)
               (proj1 (has_true _ _) Hhas)) | ].
  intros r [ -> | [x ->] ]; simpl; by eexists.
Qed.

Lemma revenue_per_item_returns d :
  ready d → ∃ d', revenue_per_item d = Ok d' ∧ ready d'.
Proof.
  intros Hready.
  apply (pure_step_returns ["revenue_per_item"] revenue_per_item);
    [ | apply revenue_per_item_evolves | compute_done | done ].
  unfold revenue_per_item.
  destruct (has "total_amount" d) eqn:Ht; [ | by eexists ].
  destruct (has "quantity" d) eqn:Hq; [ | by eexists ]. simpl.
  apply assign_returns. destruct Hready as (_ & _ & Htyped).
  pose proof (Htyped "total_amount" ltac:(compute_done)
                (proj1 (has_true _ _) Ht)) as Htotal.
  pose proof (Htyped "quantity" ltac:(compute_done)
                (proj1 (has_true _ _) Hq)) as Hquantity.
  apply Forall_forall. intros r Hr.
  destruct (proj1 (Forall_forall _ _) Htotal r Hr) as [ -> | [t ->] ];
    destruct (proj1 (Forall_forall _ _) Hquantity r Hr) as [ -> | [q ->] ];
    simpl; by eexists.
Qed.

Lemma remove_duplicates_returns d :
  ready d → ∃ d', remove_duplicates d = Ok d' ∧ ready d'.
Proof.
  intros Hready.
  apply (pure_step_returns [] remove_duplicates);
    [ | apply remove_duplicates_evolves | compute_done | done ].
  unfold remove_duplicates, drop_duplicates.
  destruct (is_empty d); [ by eexists | ].
  destruct Hready as (Hid & _). rewrite (proj2 (has_true _ _) Hid). by eexists.
Qed.

(** On a ready table every step returns, and so does the pipeline. *)
Lemma clean_data_total df : ready df → ∃ out, clean_data df = Ok out.
Proof.
  intros Hready.
  unfold clean_data, handle_missing, standardize_types, handle_outliers,
    positive_amounts, standardize_categorical, derive_columns.
  destruct (fill_customer_age_returns _ Hready) as (d1 & -> & H1).
  rewrite !Ok_bind.
  destruct (pure_step_returns ["product_category"] fill_product_category d1)
    as (d2 & -> & H2);
    [ unfold fill_product_category; destruct (has _ _); by eexists
    | apply fill_product_category_evolves | compute_done | done | ].
  rewrite !Ok_bind.
  destruct (pure_step_returns [] drop_missing_critical d2) as (d3 & -> & H3);
    [ by eexists | apply drop_missing_critical_evolves | compute_done | done | ].
  rewrite !Ok_bind.
  destruct (remove_duplicates_returns _ H3) as (d4 & -> & H4).
  rewrite !Ok_bind.
  destruct (pure_step_returns ["order_date"] clean_order_date d4)
    as (d5 & -> & H5);
    [ unfold clean_order_date; destruct (has _ _); by eexists
    | apply clean_order_date_evolves | compute_done | done | ].
  rewrite !Ok_bind.
  destruct (pure_step_returns [] clean_customer_email d5) as (d6 & -> & H6);
    [ unfold clean_customer_email; destruct (has _ _); by eexists
    | apply clean_customer_email_evolves | compute_done | done | ].
  rewrite !Ok_bind.
  destruct (pure_step_returns ["customer_phone"] clean_customer_phone d6)
    as (d7 & -> & H7);
    [ unfold clean_customer_phone; destruct (has _ _); by eexists
    | apply clean_customer_phone_evolves | compute_done | done | ].
  rewrite !Ok_bind.
  destruct (positive_returns "quantity" d7) as (d8 & -> & H8);
    [ compute_done | done | ].
  rewrite !Ok_bind.
  destruct (positive_returns "unit_price" d8) as (d9 & -> & H9);
    [ compute_done | done | ].
  rewrite !Ok_bind.
  destruct (positive_returns "total_amount" d9) as (d10 & -> & H10);
    [ compute_done | done | ].
  rewrite !Ok_bind.
  destruct (remove_extreme_outliers_returns _ H10) as (d11 & -> & H11).
  rewrite !Ok_bind.
  destruct (pure_step_returns ["product_category"]
              (title_case "product_category") d11) as (d12 & -> & H12);
    [ unfold title_case; destruct (has _ _); by eexists
    | apply title_case_evolves | compute_done | done | ].
  rewrite !Ok_bind.
  destruct (pure_step_returns ["customer_gender"] standardize_customer_gender d12)
    as (d13 & -> & H13);
    [ unfold standardize_customer_gender; destruct (has _ _); by eexists
    | apply standardize_customer_gender_evolves | compute_done | done | ].
  rewrite !Ok_bind.
  destruct (pure_step_returns ["payment_method"]
              (title_case "payment_method") d13) as (d14 & -> & H14);
    [ unfold title_case; destruct (has _ _); by eexists
    | apply title_case_evolves | compute_done | done | ].
  rewrite !Ok_bind.
  destruct (pure_step_returns date_component_columns date_components d14)
    as (d15 & -> & H15);
    [ unfold date_components; destruct (has _ _); by eexists
    | apply date_components_evolves | compute_done | done | ].
  rewrite !Ok_bind.
  destruct (age_groups_returns _ H15) as (d16 & -> & H16).
  rewrite !Ok_bind.
  destruct (revenue_per_item_returns _ H16) as (d17 & -> & H17).
  exists d17. apply final_validation_Ok.
  destruct H17 as (? & ? & _). done.
Qed.

End returns.

Section edges.
Context `{Pandas}.


(** X2.  On a table that lacks the [order_id] column or the [order_date]
    column, [clean_data] raises an exception, whatever the rows are. *)
Theorem clean_data_raises_without_id_or_date df :
  "order_id" ∉ columns df ∨ "order_date" ∉ columns df →
  ∃ e, clean_data df = Raise e.
Proof.
  intros Hmissing. destruct (clean_data df) as [ out | e ] eqn:Hrun; [ | by exists e ].
  destruct (clean_data_needs_columns _ _ Hrun) as [Hid Hdate].
  by destruct Hmissing.
Qed.

Lemma traces_nil_inv W out : traces W out [] → out = [].
Proof. by inversion 1. Qed.

Lemma traces_length W out inp : traces W out inp → (length out ≤ length inp)%nat.
Proof. induction 1; simpl; lia. Qed.


Lemma variance_of_few xs : (length xs ≤ 1)%nat → variance xs = None.
Proof. destruct xs as [ | x [ | y xs ] ]; simpl; [ done | done | lia ]. Qed.

Lemma omap_length {A B} (f : A → option B) l :
  (length (omap f l) ≤ length l)%nat.
Proof.
  induction l as [ | a l IH ]; [ done | ]. csimpl.
  destruct (f a); simpl; lia.
Qed.

Lemma few_rows_dropped df before out :
  clean_data df = Ok out → "total_amount" ∈ columns df →
  before_outlier_test df = Ok before → (length (rows before) ≤ 1)%nat →
  rows out = [].
Proof.
  intros Hrun Hc Hbefore Hlen.
  rewrite clean_data_stages, before_derived_columns_stages, bind_assoc in Hrun.
  rewrite Hbefore, Ok_bind in Hrun.
  assert (evolves rewritten_columns df before) as [_ Hcols _].
  { clear Hrun. pipeline Hbefore. evolve. }
  clear Hbefore. pipeline Hrun.
  destruct (remove_extreme_outliers_within _ _ S_outlier (Hcols _ Hc))
    as (xs & Hxs & Hwithin).
  apply numbers_Ok in Hxs as [_ ->].
  rewrite variance_of_few in Hwithin.
  2: { etrans; [ apply omap_length | ]. unfold column. by rewrite length_fmap. }
  assert (rows t_outlier = []) as Hnone.
  { destruct (rows t_outlier) as [ | r l ]; [ done | ].
    apply Forall_cons in Hwithin as [Hr _].
    apply within_3_std_true in Hr as (? & ? & ? & _ & _ & [=] & _). }
  assert (evolves rewritten_columns t_outlier t_revenue) as [Htraces _ _]
    by evolve.
  rewrite Hnone in Htraces. by eapply traces_nil_inv.
Qed.

(** X4.  The standard deviation of fewer than two values is NaN, and no
    comparison with NaN holds: when the table has a [total_amount] column
    and at most one row reaches the outlier test, [clean_data] returns a
    table without rows.  In particular a table of one order comes out
    empty. *)
Theorem lone_row_is_dropped df before out :
  clean_data df = Ok out → "total_amount" ∈ columns df →
  before_outlier_test df = Ok before → (length (rows before) ≤ 1)%nat →
  rows out = [].
Proof. apply few_rows_dropped. Qed.

Lemma extends_refl N cols : extends N cols cols.
Proof. exists []. split; [ by rewrite app_nil_r | set_solver ]. Qed.

Lemma extends_trans N a b c : extends N a b → extends N b c → extends N a c.
Proof.
  intros (x & -> & Hx) (y & -> & Hy). exists (x ++ y).
  split; [ by rewrite app_assoc | set_solver ].
Qed.

Lemma extends_add_column N c cols : c ∈ N → extends N cols (add_column c cols).
Proof.
  intros Hc. unfold add_column. case_bool_decide; [ apply extends_refl | ].
  exists [c]. split; [ done | set_solver ].
Qed.

Lemma assign_extends N c f df df' :
  c ∈ N → assign c f df = Ok df' → extends N (columns df) (columns df').
Proof.
  intros Hc Hdf. unfold assign in Hdf. inv_bind Hdf. injection Hdf as <-.
  by apply extends_add_column.
Qed.

Lemma clean_data_extends df out :
  clean_data df = Ok out → extends derived_columns (columns df) (columns out).
Proof.
  intros Hrun. rewrite clean_data_stages in Hrun.
  apply bind_Ok in Hrun as (d & Hd & Hrun).
  rewrite <- (before_derived_columns_columns _ _ Hd). clear Hd.
  pipeline Hrun.
  eapply extends_trans; [ | eapply extends_trans ].
  - unfold date_components in S_components.
    destruct (has "order_date" d); injection S_components as <-;
      [ | apply extends_refl ].
    simpl. repeat (eapply extends_trans;
                   [ | apply extends_add_column; compute_done ]).
    apply extends_refl.
  - unfold age_groups in S_groups. destruct (has "customer_age" t_components).
    + eapply assign_extends; [ | done ]. compute_done.
    + injection S_groups as <-. apply extends_refl.
  - unfold revenue_per_item in S_revenue. destruct (_ && _).
    + eapply assign_extends; [ | done ]. compute_done.
    + injection S_revenue as <-. apply extends_refl.
Qed.

(** X5.  [clean_data] never removes or reorders a column: the column
    index of the output is that of the input, followed by those of the
    derived columns [order_year], [order_month], [order_day],
    [order_weekday], [order_quarter], [age_group] and [revenue_per_item]
    that it adds. *)
Theorem columns_kept_in_order df out :
  clean_data df = Ok out → extends derived_columns (columns df) (columns out).
Proof. apply clean_data_extends. Qed.

End edges.



Lemma clean_data_raises_without_id_or_date_witness :
  ("order_id" ∉ columns no_order_id ∨ "order_date" ∉ columns no_order_id) ∧
  ∃ e, clean_data no_order_id = Raise e.
Proof.
  assert ("order_id" ∉ columns no_order_id) as Hno by compute_done.
  split; [ by left | ].
  apply (clean_data_raises_without_id_or_date no_order_id). by left.
Defined.


Lemma lone_row_is_dropped_witness :
  clean_data single_order = Ok (returned (clean_data single_order)) ∧
  "total_amount" ∈ columns single_order ∧
  before_outlier_test single_order
  = Ok (returned (before_outlier_test single_order)) ∧
  (length (rows (returned (before_outlier_test single_order))) ≤ 1)%nat ∧
  rows (returned (clean_data single_order)) = [].
Proof.
  assert (clean_data single_order = Ok (returned (clean_data single_order)))
    as Hrun by (vm_compute; reflexivity).
  assert (before_outlier_test single_order
          = Ok (returned (before_outlier_test single_order)))
    as Hbefore by (vm_compute; reflexivity).
  assert (length (rows (returned (before_outlier_test single_order))) ≤ 1)%nat
    as Hlen by (vm_compute; lia).
  split; [ exact Hrun | ]. split; [ compute_done | ].
  split; [ exact Hbefore | ]. split; [ exact Hlen | ].
  apply (lone_row_is_dropped single_order
           (returned (before_outlier_test single_order))
           (returned (clean_data single_order)));
    [ exact Hrun | compute_done | exact Hbefore | exact Hlen ].
Defined.

Lemma columns_kept_in_order_witness :
  clean_data sample = Ok sample_cleaned ∧
  extends derived_columns (columns sample) (columns sample_cleaned).
Proof.
  split; [ exact clean_data_sample | ].
  apply (columns_kept_in_order sample sample_cleaned). exact clean_data_sample.
Defined.

(** ** What each rewritten column holds *)

Section columns.
Context `{Pandas}.

Lemma follows_weaken (R R' : Row → Row → Prop) out inp :
  (∀ o i, R o i → R' o i) → follows R out inp → follows R' out inp.
Proof. intros HR. induction 1; constructor; auto. Qed.

Lemma follows_trans (R1 R2 R3 : Row → Row → Prop) a b c :
  (∀ x y z, R1 x y → R2 y z → R3 x z) →
  follows R1 a b → follows R2 b c → follows R3 a c.
Proof.
  intros HR Hab Hbc. revert a Hab.
  induction Hbc as [ | o i out inp Hoi Hbc IH | i out inp Hbc IH ]; intros a Hab.
  - inversion Hab; subst. constructor.
  - inversion Hab as [ | o' ? out' ? Ho' Hab' | ? ? ? Hab' ]; subst.
    + apply follows_keep; [ by eapply HR | by apply IH ].
    + apply follows_drop. by apply IH.
  - apply follows_drop. by apply IH.
Qed.

Lemma follows_fmap (R : Row → Row → Prop) (f : Row → Row) l :
  (∀ r, R (f r) r) → follows R (f <$> l) l.
Proof. intros Hf. induction l; csimpl; constructor; auto. Qed.

Lemma follows_Forall (R : Row → Row → Prop) (P : Row → Prop) out inp :
  (∀ o i, R o i → P o) → follows R out inp → Forall P out.
Proof. intros HP. induction 1; [ done | constructor; eauto | done ]. Qed.

Lemma traces_follows W c out inp :
  c ∉ W → traces W out inp → follows (rewritten c id) out inp.
Proof.
  intros Hc. induction 1 as [ | o i out inp Hoi _ IH | i out inp _ IH ];
    constructor; try done.
  split; [ apply Hoi | by apply (same_outside_cell _ _ _ _ Hoi) ].
Qed.

Lemma rewritten_compose c g1 g2 x y z :
  rewritten c g2 x y → rewritten c g1 y z → rewritten c (g2 ∘ g1) x z.
Proof. intros [Hl1 Hc1] [Hl2 Hc2]. split; [ congruence | ]. simpl. congruence. Qed.

(** A column that one step rewrites with [g], and no other step writes. *)
Lemma column_follows c g W1 W2 df a b out :
  c ∉ W1 → c ∉ W2 → evolves W1 df a → evolves W2 b out →
  follows (rewritten c g) (rows b) (rows a) →
  follows (rewritten c g) (rows out) (rows df).
Proof.
  intros H1 H2 [Hpre _ _] [Hpost _ _] Hstep.
  apply (traces_follows _ c) in Hpre, Hpost; try done.
  assert (follows (rewritten c g) (rows b) (rows df)) as Hmid.
  { apply (follows_trans (rewritten c g) (rewritten c id) _ _ (rows a));
      [ | done | done ].
    intros x y z [Hl1 Hc1] [Hl2 Hc2]. split; [ congruence | ].
    by rewrite Hc1, Hc2. }
  apply (follows_trans (rewritten c id) (rewritten c g) _ _ (rows b));
    [ | done | done ].
  intros x y z [Hl1 Hc1] [Hl2 Hc2]. split; [ congruence | ].
  by rewrite Hc1, Hc2.
Qed.

Lemma transform_follows c g df :
  follows (rewritten c g)
    (rows (transform c (λ r, g (cell r c)) df)) (rows df).
Proof.
  rewrite transform_rows. apply follows_fmap. intros r.
  split; [ done | apply cell_set_cell_eq ].
Qed.

Lemma fillna_follows c v df :
  follows (rewritten c (fill v)) (rows (fillna c v df)) (rows df).
Proof.
  simpl. apply follows_fmap. intros r. unfold rewritten, fill.
  destruct (isna (cell r c)) eqn:Hna; rewrite ?Hna; split; try done.
  apply cell_set_cell_eq.
Qed.

End columns.

Section rewritten_columns.
Context `{Pandas}.

Lemma gender_mapping_values s t :
  gender_mapping !! s = Some t → t = "Male" ∨ t = "Female".
Proof.
  unfold gender_mapping. intros Hin%elem_of_list_to_map_2.
  repeat (apply elem_of_cons in Hin as [ [= _ <-] | Hin ]); auto.
  by apply elem_of_nil in Hin.
Qed.

Lemma gender_of_values v :
  gender_of v ∈ [VStr "Male"; VStr "Female"; VStr "Unknown"].
Proof.
  unfold gender_of, map_dict, fill.
  destruct v as [ | x | s | d ]; simpl; try set_solver.
  destruct (gender_mapping !! s) as [ t | ] eqn:Ht; simpl; [ | set_solver ].
  destruct (gender_mapping_values _ _ Ht) as [ -> | -> ]; set_solver.
Qed.

(** X6.  With a [customer_gender] column in the input, the rows of the
    output come, in order, from rows of the input, and each holds in
    [customer_gender] what the mapping makes of the value of the row it
    comes from: "Male" for M, m, male and MALE, "Female" for F, f, female
    and FEMALE, "Unknown" for everything else, a missing value included.
    So every [customer_gender] of the output is one of the three. *)
Theorem gender_standardized df out :
  clean_data df = Ok out → "customer_gender" ∈ columns df →
  follows (rewritten "customer_gender" gender_of) (rows out) (rows df) ∧
  Forall (λ r, cell r "customer_gender"
               ∈ [VStr "Male"; VStr "Female"; VStr "Unknown"]) (rows out).
Proof.
  intros Hrun Hc. pipeline Hrun.
  assert (follows (rewritten "customer_gender" gender_of)
            (rows t_revenue) (rows df)) as Hfollows.
  { assert (evolves ["customer_age"; "product_category"; "order_date";
                     "customer_phone"] df t_titled) as Hpre by evolve.
    assert (evolves ["payment_method"; "order_year"; "order_month";
                     "order_day"; "order_weekday"; "order_quarter";
                     "age_group"; "revenue_per_item"] t_gender t_revenue)
      as Hpost by evolve.
    refine (column_follows _ _ _ _ _ _ _ _ _ _ Hpre Hpost _);
      [ compute_done | compute_done | ].
    unfold standardize_customer_gender in S_gender.
    rewrite (proj2 (has_true _ _) (ev_columns _ _ _ Hpre _ Hc)) in S_gender.
    injection S_gender as <-.
    apply (transform_follows "customer_gender" gender_of). }
  split; [ done | ].
  refine (follows_Forall _ _ _ _ _ Hfollows).
  intros o i [_ ->]. apply gender_of_values.
Qed.






(** X10.  With a [customer_age] column in the input, the median of that
    column is taken over all rows of the input, before any row is
    dropped; each row of the output keeps the [customer_age] of the row it
    comes from, and holds that median where the age was missing. *)
Theorem customer_age_imputed df out :
  clean_data df = Ok out → "customer_age" ∈ columns df →
  ∃ m, median (column "customer_age" df) = Ok m ∧
       follows (rewritten "customer_age" (fill m)) (rows out) (rows df).
Proof.
  intros Hrun Hc. pipeline Hrun.
  unfold fill_customer_age in S_age.
  rewrite (proj2 (has_true _ _) Hc) in S_age.
  apply bind_Ok in S_age as (m & Hm & S_age). exists m. split; [ done | ].
  assert (evolves ["product_category"; "order_date"; "customer_phone";
                   "customer_gender"; "payment_method"; "order_year";
                   "order_month"; "order_day"; "order_weekday";
                   "order_quarter"; "age_group"; "revenue_per_item"]
            t_age t_revenue) as Hpost.
  { eapply evolves_step;
      [ apply (fill_product_category_evolves _ _ S_category)
      | compute_done | evolve ]. }
  refine (column_follows _ _ [] _ _ _ _ _ _ _ (evolves_refl _ _) Hpost _);
    [ compute_done | compute_done | ].
  injection S_age as <-. apply fillna_follows.
Qed.

End rewritten_columns.

Section derived.
Context `{Pandas}.

Lemma day_name_exists d :
  ∃ n, dt_day_name (VDate d) = VStr n ∧ n ∈ day_names.
Proof.
  unfold dt_day_name.
  pose proof (Z.mod_pos_bound (days_from_civil d + 3) 7 ltac:(lia)) as Hmod.
  destruct (lookup_lt_is_Some_2 day_names
              (Z.to_nat ((days_from_civil d + 3) `mod` 7))) as [n Hn].
  { simpl. lia. }
  rewrite Hn. exists n. split; [ done | ]. by eapply list_elem_of_lookup_2.
Qed.

(** X11.  Every row of the output has a [Timestamp] in [order_date], and
    holds in [order_year], [order_month] and [order_day] the year, month
    and day of that date, in [order_quarter] the quarter
    [(month - 1) // 3 + 1], and in [order_weekday] the name of a day of the
    week. *)
Theorem date_components_consistent df out :
  clean_data df = Ok out →
  Forall (λ r, ∃ d,
            cell r "order_date" = VDate d ∧
            cell r "order_year" = VNum (num (year d)) ∧
            cell r "order_month" = VNum (num (month d)) ∧
            cell r "order_day" = VNum (num (day d)) ∧
            cell r "order_quarter" = VNum (num ((month d - 1) / 3 + 1)) ∧
            ∃ n, cell r "order_weekday" = VStr n ∧ n ∈ day_names)
         (rows out).
Proof.
  intros Hrun. pose proof (clean_data_needs_columns _ _ Hrun) as [_ Hdate].
  pipeline Hrun.
  assert (evolves ["customer_age"; "product_category"] df t_unique)
    as [_ Hcols _] by evolve.
  pose proof (clean_order_date_stored _ _ S_date (Hcols _ Hdate)) as Hstored.
  assert (evolves
            ["customer_phone"; "product_category"; "customer_gender";
             "payment_method"; "order_year"; "order_month"; "order_day";
             "order_weekday"; "order_quarter"; "age_group";
             "revenue_per_item"] t_date t_revenue) as Hlate by evolve.
  assert ("order_date" ∉
            ["customer_phone"; "product_category"; "customer_gender";
             "payment_method"; "order_year"; "order_month"; "order_day";
             "order_weekday"; "order_quarter"; "age_group";
             "revenue_per_item"]) as Hnot by compute_done.
  pose proof (evolves_stored _ _ _ _ _ Hnot Hlate Hstored) as Hdates.
  assert (evolves ["customer_age"; "product_category"; "order_date";
                   "customer_phone"; "customer_gender"; "payment_method"]
            df t_payment) as [_ Hcols' _] by evolve.
  destruct (date_components_stored_after _ _ S_components (Hcols' _ Hdate))
    as [_ Hcomponents].
  assert (evolves ["age_group"; "revenue_per_item"] t_components t_revenue)
    as Hlast by evolve.
  assert (Forall date_components_stored (rows t_revenue)) as Hparts.
  { refine (evolves_Forall _ _ _ _ _ Hlast Hcomponents).
    intros o i Hoi. unfold date_components_stored.
    rewrite (same_outside_cell _ _ _ "order_date" Hoi) by compute_done.
    destruct Hoi as [_ Hoi]. by rewrite !Hoi by compute_done. }
  apply Forall_forall. intros r Hr.
  pose proof (proj1 (Forall_forall _ _) Hdates r Hr) as Hd.
  apply stored_cell in Hd.
  destruct (proj1 (Forall_forall _ _) Hparts r Hr) as (Hy & Hm & Hday & Hw & Hq).
  destruct (cell r "order_date") as [ | | | d ] eqn:Hcell; try discriminate.
  exists d. unfold cell. rewrite Hy, Hm, Hday, Hw, Hq. simpl.
  repeat split. apply day_name_exists.
Qed.


End derived.

Lemma gender_standardized_witness :
  clean_data sample = Ok sample_cleaned ∧
  "customer_gender" ∈ columns sample ∧
  follows (rewritten "customer_gender" gender_of)
    (rows sample_cleaned) (rows sample) ∧
  Forall (λ r, cell r "customer_gender"
               ∈ [VStr "Male"; VStr "Female"; VStr "Unknown"])
         (rows sample_cleaned).
Proof.
  split; [ exact clean_data_sample | ]. split; [ compute_done | ].
  apply (gender_standardized sample sample_cleaned);
    [ exact clean_data_sample | compute_done ].
Defined.




Lemma customer_age_imputed_witness :
  clean_data sample = Ok sample_cleaned ∧
  "customer_age" ∈ columns sample ∧
  ∃ m, median (column "customer_age" sample) = Ok m ∧
       follows (rewritten "customer_age" (fill m))
         (rows sample_cleaned) (rows sample).
Proof.
  split; [ exact clean_data_sample | ]. split; [ compute_done | ].
  apply (customer_age_imputed sample sample_cleaned);
    [ exact clean_data_sample | compute_done ].
Defined.

Lemma date_components_consistent_witness :
  clean_data sample = Ok sample_cleaned ∧
  Forall (λ r, ∃ d,
            cell r "order_date" = VDate d ∧
            cell r "order_year" = VNum (num (year d)) ∧
            cell r "order_month" = VNum (num (month d)) ∧
            cell r "order_day" = VNum (num (day d)) ∧
            cell r "order_quarter" = VNum (num ((month d - 1) / 3 + 1)) ∧
            ∃ n, cell r "order_weekday" = VStr n ∧ n ∈ day_names)
         (rows sample_cleaned).
Proof.
  split; [ exact clean_data_sample | ].
  apply (date_components_consistent sample sample_cleaned).
  exact clean_data_sample.
Defined.


(** * The profile and the script *)

(** ** Counting *)

Lemma remove_dups_length {A} `{EqDecision A} (l : list A) :
  (length (remove_dups l) ≤ length l)%nat.
Proof.
  induction l as [ | a l IH ]; simpl; [ done | ].
  destruct (decide_rel _ a l); simpl; lia.
Qed.

Lemma remove_dups_NoDup {A} `{EqDecision A} (l : list A) :
  NoDup l → remove_dups l = l.
Proof.
  induction 1 as [ | a l Ha _ IH ]; simpl; [ done | ].
  destruct (decide_rel _ a l); [ done | by f_equal ].
Qed.

Lemma filter_present vs :
  Forall (λ v, v ≠ VNaN) vs → filter (λ v, isna v = false) vs = vs.
Proof.
  induction 1 as [ | v vs Hv _ IH ]; [ done | ].
  rewrite filter_cons_True by by destruct v. by f_equal.
Qed.

Lemma filter_missing vs :
  Forall (λ v, v ≠ VNaN) vs → filter (λ v, isna v = true) vs = [].
Proof.
  induction 1 as [ | v vs Hv _ IH ]; [ done | ].
  by rewrite filter_cons_False by by destruct v.
Qed.

Lemma nunique_le vs : (nunique vs ≤ length vs)%nat.
Proof.
  unfold nunique. etrans; [ apply remove_dups_length | apply length_filter ].
Qed.

Lemma nunique_zero vs : nunique vs = 0%nat ↔ Forall (λ v, v = VNaN) vs.
Proof.
  unfold nunique. split.
  - intros Hnone%nil_length_inv. apply Forall_forall. intros v Hv.
    destruct (isna v) eqn:Hna; [ by destruct v | ].
    assert (v ∈ remove_dups (filter (λ v, isna v = false) vs)) as Hin.
    { apply elem_of_remove_dups, list_elem_of_filter. by split. }
    rewrite Hnone in Hin. by apply elem_of_nil in Hin.
  - induction 1 as [ | v vs -> _ IH ]; [ done | ].
    by rewrite filter_cons_False by done.
Qed.

Lemma nunique_distinct vs :
  NoDup vs → Forall (λ v, v ≠ VNaN) vs → nunique vs = length vs.
Proof.
  intros Hdistinct Hpresent. unfold nunique.
  by rewrite filter_present, remove_dups_NoDup.
Qed.

Lemma numbers_returns vs :
  Forall is_number_or_missing vs ↔ ∃ xs, numbers vs = Ok xs.
Proof.
  split.
  - intros Hvs. exists (omap number_of vs). by apply numbers_Ok.
  - intros [xs Hxs]. by apply numbers_Ok in Hxs as [? _].
Qed.

Lemma num_le a b : (a ≤ b)%Z → (num a ≤ num b)%Qc.
Proof. intros Hab. unfold Qcle. by rewrite !num_this, <- Zle_Qle. Qed.

Lemma num_lt a b : (a < b)%Z → (num a < num b)%Qc.
Proof. intros Hab. unfold Qclt. by rewrite !num_this, <- Zlt_Qlt. Qed.

Lemma quotient_at_least_one (n m : nat) :
  (1 ≤ n ≤ m)%nat →
  (num 1 ≤ num (Z.of_nat m) / num (Z.of_nat n))%Qc.
Proof.
  intros [Hn Hm].
  assert (num 0 < num (Z.of_nat n))%Qc as Hpos by (apply num_lt; lia).
  apply (Qcmult_lt_0_le_reg_r _ _ _ Hpos).
  rewrite Qcmult_1_l, (Qcmult_comm (_ / _)), Qcmult_div_r.
  - apply num_le. lia.
  - by apply positive_nonzero.
Qed.

Section profiling.

(** X13.  [generate_data_profile] raises [ZeroDivisionError] exactly on a
    table that has a [customer_id] column without a single customer id (so
    on every such table without rows) and whose [total_amount] column, if
    there is one, holds numbers and missing cells only. *)
Theorem profile_division_by_zero df :
  generate_data_profile df = Raises ZeroDivisionError ↔
  "customer_id" ∈ columns df ∧
  Forall (λ v, v = VNaN) (column "customer_id" df) ∧
  ("total_amount" ∈ columns df →
   Forall is_number_or_missing (column "total_amount" df)).
Proof.
  unfold generate_data_profile, revenue_statistics_of, customer_statistics_of.
  rewrite <- nunique_zero, <- !has_true.
  destruct (has "total_amount" df).
  - destruct (numbers (column "total_amount" df)) as [ xs | e ] eqn:Hxs.
    + assert (Forall is_number_or_missing (column "total_amount" df))
        by (apply numbers_returns; eauto).
      destruct (has "customer_id" df); [ | naive_solver ].
      destruct (nunique (column "customer_id" df)); naive_solver.
    + split; [ done | ]. intros (_ & _ & Hnum).
      apply numbers_returns in Hnum as [xs' Hnum]; [ | done ]. congruence.
  - destruct (has "customer_id" df); [ | naive_solver ].
    destruct (nunique (column "customer_id" df)); naive_solver.
Qed.

(** X14.  When [generate_data_profile] returns and shows customer
    statistics, there is at least one customer, there are at least as many
    orders as customers, the orders are the rows of the table, and the
    average number of orders per customer is at least 1. *)
Theorem orders_per_customer_at_least_one df p c :
  generate_data_profile df = Returns p → customers p = Some c →
  (1 ≤ total_customers c ≤ total_orders c)%nat ∧
  total_orders c = length (rows df) ∧
  (num 1 ≤ orders_per_customer c)%Qc.
Proof.
  unfold generate_data_profile, customer_statistics_of.
  destruct (revenue_statistics_of df) as [ rev | ]; [ | done ].
  destruct (has "customer_id" df); [ | by intros [= <-] ].
  assert (nunique (column "customer_id" df) ≤ length (rows df))%nat as Hle.
  { etrans; [ apply nunique_le | ]. unfold column. rewrite length_fmap. lia. }
  destruct (nunique (column "customer_id" df)) as [ | n ] eqn:Hn; [ done | ].
  intros [= <-] [= <-]. simpl.
  split; [ lia | ]. split; [ done | ].
  apply quotient_at_least_one. lia.
Qed.

End profiling.

(** ** Sums, means and medians of positive numbers *)

Lemma Qc_add_positive x s : (num 0 < x → num 0 ≤ s → num 0 < x + s)%Qc.
Proof.
  unfold Qclt, Qcle. simpl. intros Hx Hs.
  change (Qred (inject_Z 0)) with (inject_Z 0) in *.
  rewrite (Qred_correct (x + s)). unfold inject_Z in *. lra.
Qed.

Lemma Qc_div_positive a b : (num 0 < a → num 0 < b → num 0 < a / b)%Qc.
Proof.
  intros Ha Hb.
  assert (b ≠ num 0) as Hne by by apply positive_nonzero.
  destruct (Qclt_le_dec (num 0) (a / b)) as [ | Hle ]; [ done | exfalso ].
  apply (Qcmult_le_compat_r _ _ b) in Hle; [ | by apply Qclt_le_weak ].
  rewrite (Qcmult_comm (a / b)), Qcmult_div_r, Qcmult_0_l in Hle by done.
  by apply Qcle_not_lt in Hle.
Qed.

Lemma sum_Qc_nonnegative xs :
  Forall (λ x, (num 0 < x)%Qc) xs → (num 0 ≤ sum_Qc xs)%Qc.
Proof.
  induction 1 as [ | x xs Hx _ IH ]; simpl; [ apply Qcle_refl | ].
  apply Qclt_le_weak. by apply Qc_add_positive.
Qed.

Lemma sum_Qc_positive xs :
  xs ≠ [] → Forall (λ x, (num 0 < x)%Qc) xs → (num 0 < sum_Qc xs)%Qc.
Proof.
  intros Hsome Hxs. destruct Hxs as [ | x xs Hx Hxs ]; [ done | ]. simpl.
  apply Qc_add_positive; [ done | by apply sum_Qc_nonnegative ].
Qed.

Lemma count_positive (xs : list Qc) : xs ≠ [] → (num 0 < count xs)%Qc.
Proof.
  intros Hsome. unfold count. apply num_lt.
  destruct xs; [ done | simpl; lia ].
Qed.

Lemma mean_positive xs :
  xs ≠ [] → Forall (λ x, (num 0 < x)%Qc) xs →
  ∃ a, mean xs = Some a ∧ (num 0 < a)%Qc ∧ (a * count xs = sum_Qc xs)%Qc.
Proof.
  intros Hsome Hxs. exists (sum_Qc xs / count xs)%Qc.
  pose proof (count_positive xs Hsome) as Hcount.
  split; [ by destruct xs | ]. split.
  - apply Qc_div_positive; [ by apply sum_Qc_positive | done ].
  - rewrite Qcmult_comm. apply Qcmult_div_r. by apply positive_nonzero.
Qed.

Lemma median_of_positive xs :
  xs ≠ [] → Forall (λ x, (num 0 < x)%Qc) xs →
  ∃ m, median_of xs = VNum m ∧ (num 0 < m)%Qc.
Proof.
  intros Hsome Hxs. unfold median_of.
  pose proof (merge_sort_Permutation Qcle xs) as Hperm.
  remember (merge_sort Qcle xs) as ys eqn:Hys. clear Hys.
  assert (Forall (λ x, (num 0 < x)%Qc) ys) as Hpos by by rewrite Hperm.
  assert (0 < length ys)%nat as Hlen.
  { rewrite (Permutation_length Hperm). destruct xs; [ done | simpl; lia ]. }
  remember (length ys) as n eqn:Hn.
  assert (n / 2 < n)%nat as Hhalf by (apply Nat.div_lt; lia).
  destruct (lookup_lt_is_Some_2 ys (n / 2)) as [b Hb]; [ lia | ].
  destruct (lookup_lt_is_Some_2 ys (n / 2 - 1)) as [a Ha]; [ lia | ].
  pose proof (proj1 (Forall_lookup _ _) Hpos _ _ Ha) as Ha0.
  pose proof (proj1 (Forall_lookup _ _) Hpos _ _ Hb) as Hb0.
  destruct n as [ | n' ]; [ lia | ].
  rewrite Ha, Hb. destruct (Nat.even (S n')).
  - eexists. split; [ done | ].
    apply Qc_div_positive; [ | by apply num_lt ].
    apply Qc_add_positive; [ done | by apply Qclt_le_weak ].
  - by exists b.
Qed.

Lemma numbers_of_positive c (l : list Row) :
  Forall (λ r, is_positive (cell r c)) l →
  ∃ xs, omap number_of ((λ r, cell r c) <$> l) = xs ∧
        length xs = length l ∧ Forall (λ x, (num 0 < x)%Qc) xs.
Proof.
  induction 1 as [ | r l (x & Hx & Hpos) _ (xs & Hxs & Hlen & Hall) ].
  - by exists [].
  - exists (x :: xs). csimpl. rewrite Hx. simpl. rewrite Hxs.
    split; [ done | ]. split; [ by f_equal | by constructor ].
Qed.

(** ** The profile of a cleaned table *)

Lemma profile_of_no_rows df :
  rows df = [] → "customer_id" ∈ columns df →
  generate_data_profile df = Raises ZeroDivisionError.
Proof.
  intros Hrows Hc.
  unfold generate_data_profile, revenue_statistics_of, customer_statistics_of.
  unfold column. rewrite Hrows, (proj2 (has_true _ _) Hc). simpl.
  by destruct (has "total_amount" df).
Qed.

Lemma profile_returns df :
  ("total_amount" ∈ columns df →
   Forall is_number_or_missing (column "total_amount" df)) →
  ("customer_id" ∈ columns df → nunique (column "customer_id" df) ≠ 0%nat) →
  ∃ p, generate_data_profile df = Returns p.
Proof.
  intros Hamount Hcustomer.
  unfold generate_data_profile, revenue_statistics_of, customer_statistics_of.
  rewrite <- !has_true in *.
  assert (∃ rev, (if has "total_amount" df then
             match numbers (column "total_amount" df) with
             | Ok xs =>
                 Returns (Some {| total_revenue := sum_Qc xs;
                                  average_order_value := mean xs;
                                  median_order_value := median_of xs |})
             | Raise _ => Raises TypeOrValueError
             end
           else Returns None) = Returns rev) as [rev ->].
  { destruct (has "total_amount" df); [ | by eexists ].
    destruct (proj1 (numbers_returns _) (Hamount eq_refl)) as [xs ->].
    by eexists. }
  destruct (has "customer_id" df); [ | by eexists ].
  specialize (Hcustomer eq_refl).
  destruct (nunique (column "customer_id" df)); [ done | by eexists ].
Qed.

Section profile_of_cleaned.
Context `{Pandas}.

Lemma cleaned_amounts_numeric df out :
  clean_data df = Ok out → "total_amount" ∈ columns out →
  Forall is_number_or_missing (column "total_amount" out).
Proof.
  intros Hrun Hc.
  destruct (ev_new _ _ _ (clean_data_evolves _ _ Hrun) _ Hc) as [ Hc' | Hin ].
  - unfold column. rewrite Forall_fmap.
    eapply Forall_impl;
      [ exact (positive_after df out "total_amount" Hrun
                 ltac:(compute_done) Hc') | ].
    simpl. intros r (x & -> & _). right. by exists x.
  - exfalso. revert Hin. compute_done.
Qed.

Lemma cleaned_customers_counted df out :
  clean_data df = Ok out → "customer_id" ∈ columns df → rows out ≠ [] →
  nunique (column "customer_id" out) ≠ 0%nat.
Proof.
  intros Hrun Hc Hsome Hnone%nunique_zero.
  pose proof (complete_after df out "customer_id" Hrun
                ltac:(compute_done) Hc) as Hfull.
  unfold column in Hnone. rewrite Forall_fmap in Hnone.
  destruct (rows out) as [ | r l ]; [ done | ].
  apply Forall_cons in Hnone as [Hr _]. apply Forall_cons in Hfull as [Hr' _].
  done.
Qed.

Lemma profile_of_cleaned_rows df out :
  clean_data df = Ok out → "customer_id" ∈ columns df →
  (rows out = [] ∧ generate_data_profile out = Raises ZeroDivisionError) ∨
  (rows out ≠ [] ∧ ∃ p, generate_data_profile out = Returns p).
Proof.
  intros Hrun Hc.
  pose proof (ev_columns _ _ _ (clean_data_evolves _ _ Hrun) _ Hc) as Hc'.
  destruct (decide (rows out = [])) as [ Hnone | Hsome ].
  - left. split; [ done | by apply profile_of_no_rows ].
  - right. split; [ done | ]. apply profile_returns.
    + by apply (cleaned_amounts_numeric df).
    + intros _. by apply (cleaned_customers_counted df).
Qed.

(** X15.  The report of a cleaned table that has customer ids:
    [generate_data_profile] raises [ZeroDivisionError] when the cleaned
    table has no rows, and returns when it has one. *)
Theorem profile_of_cleaned_table df out :
  clean_data df = Ok out → "customer_id" ∈ columns df →
  (rows out = [] ∧ generate_data_profile out = Raises ZeroDivisionError) ∨
  (rows out ≠ [] ∧ ∃ p, generate_data_profile out = Returns p).
Proof. apply profile_of_cleaned_rows. Qed.

(** X16.  The revenue statistics of a cleaned table with at least one row:
    total, average and median order value are positive numbers, none is
    NaN, and the average times the number of rows is the total. *)
Theorem revenue_statistics_positive df out p :
  clean_data df = Ok out → "total_amount" ∈ columns df → rows out ≠ [] →
  generate_data_profile out = Returns p →
  ∃ rev a m,
    revenue p = Some rev ∧
    average_order_value rev = Some a ∧ median_order_value rev = VNum m ∧
    (num 0 < total_revenue rev)%Qc ∧ (num 0 < a)%Qc ∧ (num 0 < m)%Qc ∧
    (a * num (Z.of_nat (length (rows out))) = total_revenue rev)%Qc.
Proof.
  intros Hrun Hc Hsome.
  pose proof (ev_columns _ _ _ (clean_data_evolves _ _ Hrun) _ Hc) as Hc'.
  pose proof (positive_after df out "total_amount" Hrun
                ltac:(compute_done) Hc) as Hpos.
  destruct (numbers_of_positive _ _ Hpos) as (xs & Hxs & Hlen & Hall).
  assert (numbers (column "total_amount" out) = Ok xs) as Hnum.
  { apply numbers_Ok. split; [ | done ]. unfold column. rewrite Forall_fmap.
    eapply Forall_impl; [ exact Hpos | ].
    simpl. intros r (x & -> & _). right. by exists x. }
  assert (xs ≠ []) as Hxs'.
  { intros ->. destruct (rows out); [ done | discriminate ]. }
  unfold generate_data_profile, revenue_statistics_of.
  rewrite (proj2 (has_true _ _) Hc'), Hnum.
  destruct (customer_statistics_of out) as [ cus | ]; [ | done ].
  intros [= <-]. simpl.
  destruct (mean_positive xs Hxs' Hall) as (a & Ha & Ha0 & Hmean).
  destruct (median_of_positive xs Hxs' Hall) as (m & Hm & Hm0).
  exists {| total_revenue := sum_Qc xs; average_order_value := mean xs;
            median_order_value := median_of xs |}, a, m. simpl.
  repeat split; try done.
  - by apply sum_Qc_positive.
  - rewrite <- Hlen. exact Hmean.
Qed.

(** X17.  In the column information of a cleaned table, the line of a
    critical column shows no nulls, and the line of [order_id] shows as
    many unique values as the table has rows. *)
Theorem profile_of_critical_columns df out p i :
  clean_data df = Ok out → generate_data_profile out = Returns p →
  i ∈ columns_profile p → col i ∈ critical_columns → col i ∈ columns df →
  null_count i = 0%nat ∧
  (col i = "order_id" → unique_count i = length (rows out)).
Proof.
  intros Hrun Hp Hi Hcrit Hc.
  assert (columns_profile p = column_information out) as Hinfo.
  { unfold generate_data_profile in Hp.
    destruct (revenue_statistics_of out); [ | done ].
    destruct (customer_statistics_of out); [ | done ].
    by injection Hp as <-. }
  rewrite Hinfo in Hi. unfold column_information in Hi.
  apply list_elem_of_fmap in Hi as (c & -> & _). simpl in *.
  pose proof (complete_after df out c Hrun Hcrit Hc) as Hfull.
  assert (Forall (λ v, v ≠ VNaN) (column c out)) as Hfull'
    by (unfold column; by rewrite Forall_fmap).
  split.
  - unfold isnull_sum. by rewrite filter_missing.
  - intros ->. rewrite nunique_distinct; [ | by eapply unique_after | done ].
    unfold column. by rewrite length_fmap.
Qed.

End profile_of_cleaned.

(** ** The script *)

Section running.
Context `{Pandas} `{Files}.

Lemma few_orders_cleaned df out :
  clean_data df = Ok out → "total_amount" ∈ columns df →
  (length (rows df) ≤ 1)%nat → rows out = [].
Proof.
  intros Hrun Hc Hlen. pose proof Hrun as Hstages.
  rewrite clean_data_stages, before_derived_columns_stages, bind_assoc
    in Hstages.
  apply bind_Ok in Hstages as (before & Hbefore & _).
  apply (few_rows_dropped df before out); try done.
  assert (evolves rewritten_columns df before) as [Htraces _ _].
  { clear Hrun. pipeline Hbefore. evolve. }
  etrans; [ by eapply traces_length | done ].
Qed.

(** X18.  A raw file of at most one row, with the columns [order_id],
    [order_date], [customer_id] and [total_amount] and numbers in the
    numeric columns, makes [main] stop with [ZeroDivisionError]: the
    cleaned table is empty, the profile divides by the number of
    customers, and nothing is written. *)
Theorem main_fails_on_few_orders w df :
  read_csv input_file w = Table df →
  (length (rows df) ≤ 1)%nat →
  "order_id" ∈ columns df → "order_date" ∈ columns df →
  "customer_id" ∈ columns df → "total_amount" ∈ columns df →
  well_typed df →
  main w = (w, Raises ZeroDivisionError).
Proof.
  intros Hread Hlen Hid Hdate Hcustomer Hamount Htyped.
  destruct (clean_data_total df) as [out Hout]; [ done | ].
  unfold main, load_data. rewrite Hread, Hout.
  rewrite profile_of_no_rows; [ done | | ].
  - by apply (few_orders_cleaned df).
  - by apply (ev_columns _ _ _ (clean_data_evolves _ _ Hout)).
Qed.

(** X19.  What [main] does to the files: either it leaves them as they
    are, or it returns after one [to_csv] of the cleaned table of the raw
    file to the output path; and a cleaned table with customer ids is
    only written when it has a row. *)
Theorem main_writes_cleaned_table w w' r :
  main w = (w', r) →
  w' = w ∨
  ∃ df out ok,
    r = Returns () ∧
    read_csv input_file w = Table df ∧ clean_data df = Ok out ∧
    to_csv out output_file w = (w', ok) ∧
    ("customer_id" ∈ columns df → rows out ≠ []).
Proof.
  unfold main, load_data, save_cleaned_data.
  destruct (read_csv input_file w) as [ df | | ] eqn:Hread;
    [ | intros [= <- _]; by left | intros [= <- _]; by left ].
  destruct (clean_data df) as [ out | e ] eqn:Hout;
    [ | intros [= <- _]; by left ].
  destruct (generate_data_profile out) as [ p | e ] eqn:Hp;
    [ | intros [= <- _]; by left ].
  destruct (to_csv out output_file w) as [w1 ok] eqn:Hsave.
  intros [= <- <-]. right. exists df, out, ok. repeat split; try done.
  intros Hc Hnone.
  destruct (profile_of_cleaned_rows df out Hout Hc) as [ [_ Hraise] | [Hsome _] ];
    [ congruence | done ].
Qed.

End running.

Lemma profile_of_sample :
  generate_data_profile sample_cleaned = Returns sample_profile.
Proof. vm_compute. reflexivity. Qed.

Lemma main_sample_world :
  main sample_world = (sample_world_cleaned, Returns ()).
Proof. vm_compute. reflexivity. Qed.

Lemma single_order_well_typed : well_typed single_order.
Proof.
  intros c Hc _. unfold numeric_columns in Hc.
  repeat (apply elem_of_cons in Hc as [-> | Hc]);
    [ compute_done .. | by apply elem_of_nil in Hc ].
Qed.

Lemma orders_per_customer_at_least_one_witness :
  ∃ c,
    generate_data_profile sample_cleaned = Returns sample_profile ∧
    customers sample_profile = Some c ∧
    (1 ≤ total_customers c ≤ total_orders c)%nat ∧
    total_orders c = length (rows sample_cleaned) ∧
    (num 1 ≤ orders_per_customer c)%Qc.
Proof.
  eexists. split; [ exact profile_of_sample | ]. split; [ reflexivity | ].
  apply (orders_per_customer_at_least_one sample_cleaned sample_profile);
    [ exact profile_of_sample | reflexivity ].
Defined.

Lemma profile_of_cleaned_table_witness :
  clean_data sample = Ok sample_cleaned ∧ "customer_id" ∈ columns sample ∧
  ((rows sample_cleaned = [] ∧
    generate_data_profile sample_cleaned = Raises ZeroDivisionError) ∨
   (rows sample_cleaned ≠ [] ∧
    ∃ p, generate_data_profile sample_cleaned = Returns p)).
Proof.
  split; [ exact clean_data_sample | ]. split; [ compute_done | ].
  apply (profile_of_cleaned_table sample sample_cleaned);
    [ exact clean_data_sample | compute_done ].
Defined.

Lemma revenue_statistics_positive_witness :
  clean_data sample = Ok sample_cleaned ∧ "total_amount" ∈ columns sample ∧
  rows sample_cleaned ≠ [] ∧
  generate_data_profile sample_cleaned = Returns sample_profile ∧
  ∃ rev a m,
    revenue sample_profile = Some rev ∧
    average_order_value rev = Some a ∧ median_order_value rev = VNum m ∧
    (num 0 < total_revenue rev)%Qc ∧ (num 0 < a)%Qc ∧ (num 0 < m)%Qc ∧
    (a * num (Z.of_nat (length (rows sample_cleaned)))
     = total_revenue rev)%Qc.
Proof.
  split; [ exact clean_data_sample | ]. split; [ compute_done | ].
  split; [ discriminate | ]. split; [ exact profile_of_sample | ].
  apply (revenue_statistics_positive sample sample_cleaned sample_profile);
    [ exact clean_data_sample | compute_done | discriminate
    | exact profile_of_sample ].
Defined.

Lemma profile_of_critical_columns_witness :
  ∃ i,
    clean_data sample = Ok sample_cleaned ∧
    generate_data_profile sample_cleaned = Returns sample_profile ∧
    i ∈ columns_profile sample_profile ∧ col i = "order_id" ∧
    col i ∈ critical_columns ∧ col i ∈ columns sample ∧
    null_count i = 0%nat ∧
    (col i = "order_id" → unique_count i = length (rows sample_cleaned)).
Proof.
  exists {| col := "order_id"; null_count := 0; null_pct := Some (num 0);
            unique_count := length (rows sample_cleaned) |}.
  assert ({| col := "order_id"; null_count := 0; null_pct := Some (num 0);
             unique_count := length (rows sample_cleaned) |}
          ∈ columns_profile sample_profile) as Hin.
  { apply list_elem_of_In. vm_compute. tauto. }
  split; [ exact clean_data_sample | ]. split; [ exact profile_of_sample | ].
  split; [ exact Hin | ]. split; [ reflexivity | ].
  split; [ compute_done | ]. split; [ compute_done | ].
  apply (profile_of_critical_columns sample sample_cleaned sample_profile);
    [ exact clean_data_sample | exact profile_of_sample | exact Hin
    | compute_done | compute_done ].
Defined.

Lemma main_fails_on_few_orders_witness :
  read_csv input_file single_order_world = Table single_order ∧
  (length (rows single_order) ≤ 1)%nat ∧
  main single_order_world = (single_order_world, Raises ZeroDivisionError).
Proof.
  split; [ reflexivity | ]. split; [ simpl; lia | ].
  apply (main_fails_on_few_orders single_order_world single_order);
    [ reflexivity | simpl; lia | compute_done | compute_done | compute_done
    | compute_done | exact single_order_well_typed ].
Defined.

Lemma main_writes_cleaned_table_witness :
  main sample_world = (sample_world_cleaned, Returns ()) ∧
  (sample_world_cleaned = sample_world ∨
   ∃ df out ok,
     Returns () = Returns () ∧
     read_csv input_file sample_world = Table df ∧ clean_data df = Ok out ∧
     to_csv out output_file sample_world = (sample_world_cleaned, ok) ∧
     ("customer_id" ∈ columns df → rows out ≠ [])).
Proof.
  split; [ exact main_sample_world | ].
  apply (main_writes_cleaned_table sample_world sample_world_cleaned
           (Returns ())).
  exact main_sample_world.
Defined.
